(** * Table entity flattening of the azurerm storage provider

    A shallow embedding of [flattenEntity]
    (internal/services/storage/storage_table_entity_resource.go), the routine
    that turns the entity returned by the table data plane into the
    string-keyed mapping kept in the state, together with the parts of Go's
    [strings], [fmt] and numeric conversions that it calls. *)

From Stdlib Require Import ZArith String Ascii List Bool Lia.
From Stdlib Require Import Floats.SpecFloat.
From Stdlib Require Import Numbers.DecimalString.
From stdpp Require Import gmap strings list fin_maps.

Local Open Scope Z_scope.

(** ** Go's [strings] package *)

Module GoStrings.

(** [strings.HasPrefix(s, prefix)]:
    [len(s) >= len(prefix) && s[:len(prefix)] == prefix]. *)
Definition HasPrefix (s prefix : string) : bool :=
  (String.length prefix <=? String.length s)%nat
  && String.eqb (substring 0 (String.length prefix) s) prefix.

(** [strings.HasSuffix(s, suffix)]:
    [len(s) >= len(suffix) && s[len(s)-len(suffix):] == suffix]. *)
Definition HasSuffix (s suffix : string) : bool :=
  (String.length suffix <=? String.length s)%nat
  && String.eqb
       (substring (String.length s - String.length suffix)
                  (String.length suffix) s)
       suffix.

End GoStrings.

(** ** [float64] and the conversions between [float64] and [int64] *)

Module Float64.

(** A [float64] is an IEEE 754 binary64 datum: precision 53, [emax] 1024. *)
Definition float64 : Type := spec_float.

Definition prec : Z := 53.
Definition emax : Z := 1024.

Definition int64_min : Z := - 2 ^ 63.
Definition int64_max : Z := 2 ^ 63 - 1.

(** The conversion [float64(n)] of an [int64]: round to nearest, ties to
    even. *)
Definition of_int64 (n : Z) : float64 := binary_normalize prec emax n 0 false.

(** The float64 nearest to the quotient [n / d] of two integers; this is
    the value the JSON decoder yields for a decimal literal such as
    [123.123] ([of_ratio 123123 1000]). *)
Definition of_ratio (n d : Z) : float64 :=
  SFdiv prec emax (of_int64 n) (of_int64 d).

(** Go's [==] on two float64 values. *)
Definition eqb (x y : float64) : bool := SFeqb x y.

(** The integer part of a finite float, rounded toward zero. *)
Definition trunc (s : bool) (m : positive) (e : Z) : Z :=
  let t := Z.shiftl (Zpos m) e in
  if s then - t else t.

(** The language leaves the result of [int64(f)] to the implementation
    when the truncated value does not fit ([NaN], infinities and finite
    values out of range); the conversion never fails.  An architecture
    fixes that result. *)
Class Arch := { int64_unrepresentable : float64 -> Z }.

(** amd64: CVTTSD2SQ yields the "integer indefinite" value. *)
#[export] Instance amd64 : Arch :=
  {| int64_unrepresentable := fun _ => int64_min |}.

(** arm64: FCVTZS saturates, and maps NaN to zero. *)
Definition arm64 : Arch :=
  {| int64_unrepresentable := fun f =>
       match f with
       | S754_infinity s | S754_finite s _ _ =>
           if s then int64_min else int64_max
       | _ => 0
       end |}.

(** The conversion [int64(f)]. *)
Definition to_int64 `{Arch} (f : float64) : Z :=
  match f with
  | S754_zero _ => 0
  | S754_finite s m e =>
      let z := trunc s m e in
      if (int64_min <=? z) && (z <=? int64_max) then z
      else int64_unrepresentable f
  | _ => int64_unrepresentable f
  end.

(** The float holds an integer: it is a zero, or no bit of its mantissa lies
    below the binary point. *)
Definition integral (f : float64) : bool :=
  match f with
  | S754_zero _ => true
  | S754_finite _ m e => (0 <=? e) || (Zpos m mod 2 ^ (- e) =? 0)
  | _ => false
  end.

(** The integer a float holds, when it holds one. *)
Definition integer_of (f : float64) : Z :=
  match f with
  | S754_finite s m e => trunc s m e
  | _ => 0
  end.

(** The integer part of the float fits an [int64]. *)
Definition fits_int64 (f : float64) : bool :=
  match f with
  | S754_zero _ => true
  | S754_finite s m e =>
      (int64_min <=? trunc s m e) && (trunc s m e <=? int64_max)
  | _ => false
  end.

End Float64.

(** ** Go's [fmt] and [strconv] number formatting *)

Module GoFmt.
Import Float64.

(** Decimal text of an integer: [strconv.FormatInt(n, 10)], which is what
    the verb [%d] prints for an [int64]. *)
Definition FormatInt (n : Z) : string := NilZero.string_of_int (Z.to_int n).

Fixpoint zeros (n : nat) : string :=
  match n with
  | O => ""
  | S n' => String "0" (zeros n')
  end.

(** [s] padded on the left with zeros up to [n] characters. *)
Definition pad_left (n : nat) (s : string) : string :=
  zeros (n - String.length s) +:+ s.

Definition sign_text (s : bool) : string := if s then "-" else "".

(** *** Fixed notation with six fractional digits, the verb [%f] *)

(** [n / d] rounded to the nearest integer, ties to even ([0 < d]). *)
Definition div_half_even (n d : Z) : Z :=
  let q := n / d in
  match 2 * (n mod d) ?= d with
  | Lt => q
  | Gt => q + 1
  | Eq => if Z.even q then q else q + 1
  end.

(** [m * 2^e * 10^6] rounded to an integer: the decimal expansion of a
    float is exact, and [decimal.Round] rounds half to even. *)
Definition micros (m : positive) (e : Z) : Z :=
  if 0 <=? e then Zpos m * 2 ^ e * 10 ^ 6
  else div_half_even (Zpos m * 10 ^ 6) (2 ^ (- e)).

Definition fixed6 (n : Z) : string :=
  FormatInt (n / 10 ^ 6) +:+ "." +:+ pad_left 6 (FormatInt (n mod 10 ^ 6)).

(** [strconv.FormatFloat(f, 'f', 6, 64)] with the sign handling of
    [fmt]: [+Inf], [-Inf], [NaN]. *)
Definition FormatFloat_f6 (f : float64) : string :=
  match f with
  | S754_nan => "NaN"
  | S754_infinity s => if s then "-Inf" else "+Inf"
  | S754_zero s => sign_text s +:+ "0.000000"
  | S754_finite s m e => sign_text s +:+ fixed6 (micros m e)
  end.

(** *** Shortest notation, the verb [%v] ([%g] with precision -1) *)

(** Comparison of [c * 10^q] with [x * 2^e] in exact arithmetic. *)
Definition cmp_dec_bin (c q x e : Z) : comparison :=
  c * 10 ^ Z.max q 0 * 2 ^ Z.max (- e) 0
  ?= x * 2 ^ Z.max e 0 * 10 ^ Z.max (- q) 0.

(** [floor (x * 2^e / 10^q)]. *)
Definition floor_dec (x e q : Z) : Z :=
  (x * 2 ^ Z.max e 0 * 10 ^ Z.max (- q) 0)
  / (10 ^ Z.max q 0 * 2 ^ Z.max (- e) 0).

(** Number of decimal digits of a positive integer. *)
Definition ndigits (n : Z) : Z := Z.of_nat (String.length (FormatInt n)).

(** Position of the leading decimal digit of [x * 2^e] ([0 < x]). *)
Definition lead_pos (x e : Z) : Z :=
  if 0 <=? e then ndigits (x * 2 ^ e) - 1
  else ndigits (x * 5 ^ (- e)) - 1 + e.

(** The rounding interval of the float [m * 2^e], in units of
    [2^(e-2)]: every real between [lower] and [upper] (the bounds
    included when [m] is even) parses back to the float. *)
Record interval := { lower : Z; value : Z; upper : Z; inclusive : bool }.

Definition rounding_interval (m : positive) (e : Z) : interval :=
  {| lower := if (Zpos m =? 2 ^ (prec - 1)) && (emin prec emax <? e)
              then 4 * Zpos m - 1 else 4 * Zpos m - 2;
     value := 4 * Zpos m;
     upper := 4 * Zpos m + 2;
     inclusive := Z.even (Zpos m) |}.

(** The digits [c] kept at decimal position [q], if truncating or
    rounding up there stays inside the interval; when both do, the
    nearer one, ties to even. *)
Definition digits_at (i : interval) (e2 q : Z) : option Z :=
  let down := floor_dec (value i) e2 q in
  let up := down + 1 in
  let okdown :=
    match cmp_dec_bin down q (lower i) e2 with
    | Gt => true | Eq => inclusive i | Lt => false
    end in
  let okup :=
    match cmp_dec_bin up q (upper i) e2 with
    | Lt => true | Eq => inclusive i | Gt => false
    end in
  match okdown, okup with
  | true, true =>
      (* compare v - down with up - v, that is 2v with down + up *)
      match cmp_dec_bin (down + up) q (2 * value i) e2 with
      | Gt => Some down
      | Lt => Some up
      | Eq => Some (if Z.even down then down else up)
      end
  | true, false => Some down
  | false, true => Some up
  | false, false => None
  end.

(** Walk down the decimal positions from [q] until the digits kept
    identify the float. *)
Fixpoint shortest_from (i : interval) (e2 q : Z) (fuel : nat) : Z * Z :=
  match digits_at i e2 q with
  | Some c => (c, q)
  | None =>
      match fuel with
      | O => (floor_dec (value i) e2 q, q)
      | S fuel' => shortest_from i e2 (q - 1) fuel'
      end
  end.

(** The shortest decimal [(digits, dp)] of the float [m * 2^e], the value
    being [0.digits * 10^dp]. At position [min (e-2) 0] the expansion of
    the value is exact, so the walk stops there at the latest. *)
Definition shortest (m : positive) (e : Z) : string * Z :=
  let i := rounding_interval m e in
  let e2 := e - 2 in
  let q0 := lead_pos (upper i) e2 in
  let '(c, q) := shortest_from i e2 q0 (Z.to_nat (q0 - Z.min e2 0)) in
  let ds := FormatInt c in
  (ds, q + Z.of_nat (String.length ds)).

(** [%e] form: [d.ddde±xx], at least two exponent digits. *)
Definition fmtE (ds : string) (dp : Z) : string :=
  let x := dp - 1 in
  let mant :=
    match ds with
    | String d EmptyString => String d EmptyString
    | String d rest => String d ("." +:+ rest)
    | EmptyString => "0"
    end in
  mant +:+ "e" +:+ (if x <? 0 then "-" else "+")
       +:+ pad_left 2 (FormatInt (Z.abs x)).

(** [%f] form with [max (nd - dp) 0] fractional digits. *)
Definition fmtF (ds : string) (dp : Z) : string :=
  let nd := Z.of_nat (String.length ds) in
  if dp <=? 0 then "0." +:+ zeros (Z.to_nat (- dp)) +:+ ds
  else if nd <=? dp then ds +:+ zeros (Z.to_nat (dp - nd))
  else substring 0 (Z.to_nat dp) ds +:+ "."
       +:+ substring (Z.to_nat dp) (Z.to_nat (nd - dp)) ds.

(** [%e] is used when the exponent is less than -4 or at least 6 (the
    precision used for this decision in shortest mode). *)
Definition fmtG (ds : string) (dp : Z) : string :=
  let x := dp - 1 in
  if (x <? -4) || (6 <=? x) then fmtE ds dp else fmtF ds dp.

(** [strconv.FormatFloat(f, 'g', -1, 64)] with the sign handling of
    [fmt]. *)
Definition FormatFloat_g (f : float64) : string :=
  match f with
  | S754_nan => "NaN"
  | S754_infinity s => if s then "-Inf" else "+Inf"
  | S754_zero s => sign_text s +:+ "0"
  | S754_finite s m e =>
      let '(ds, dp) := shortest m e in sign_text s +:+ fmtG ds dp
  end.

End GoFmt.

(** ** The entity and its flattening *)

Module TableEntity.
Import GoStrings Float64 GoFmt.

(** The dynamic values an [interface{}] of the entity holds.  A decoded
    JSON entity holds a [bool], a [float64] (every JSON number) or a
    [string]; these are the cases of the type switch of [flattenEntity].
    A value of any other dynamic type (JSON null, an array, an object) is
    given by the two texts [fmt] prints for it, under [%v] and under [%f]:
    [flattenEntity] formats such a value or stores it, and observes nothing
    else of it. *)
Inductive value : Type :=
| VBool (b : bool)
| VFloat (f : float64)
| VString (s : string)
| VOther (text_v text_f : string).

(** [nil], the value of a JSON null. *)
Definition VNil : value := VOther "<nil>" "%!f(<nil>)".

(** [map[string]interface{}] *)
Abbreviation Entity := (gmap string value).

(** [fmt.Sprint(v)], the verb [%v]. *)
Definition Sprint (v : value) : string :=
  match v with
  | VBool b => if b then "true" else "false"
  | VFloat f => FormatFloat_g f
  | VString s => s
  | VOther text_v _ => text_v
  end.

(** [fmt.Sprintf("%f", v)]: only a float takes the verb, any other
    operand is reported in the text as [%!f(type=value)]. *)
Definition Sprintf_f (v : value) : string :=
  match v with
  | VFloat f => FormatFloat_f6 f
  | VBool _ => "%!f(bool=" +:+ Sprint v +:+ ")"
  | VString _ => "%!f(string=" +:+ Sprint v +:+ ")"
  | VOther _ text_f => text_f
  end.

(** [dtype == "..."] for an interface value and a string constant, as in
    the cases of [switch dtype]. *)
Definition is_string (dtype : value) (s : string) : bool :=
  match dtype with
  | VString t => String.eqb t s
  | _ => false
  end.

(** The two [log.Printf] calls, kept with their operands. *)
Inductive warning : Type :=
| UnexpectedOdataType (k : string) (dtype : value)
| UnexpectedType (k : string) (v : value).

(** What the loop threads: the [result] map and the lines logged. *)
Record state : Type := { result : Entity; logged : list warning }.

Definition set (k : string) (x : value) (st : state) : state :=
  {| result := <[k := x]> (result st); logged := logged st |}.

Definition warn (w : warning) (st : state) : state :=
  {| result := result st; logged := logged st ++ [w] |}.

Section Flatten.
Context `{Arch}.

(** The body of [for k, v := range entity]. *)
Definition flattenProperty (entity : Entity) (st : state)
    (k : string) (v : value) : state :=
  if HasPrefix k "odata." || HasSuffix k "@odata.type" then st
  else
    match entity !! (k +:+ "@odata.type") with
    | Some dtype =>
        if is_string dtype "Edm.Boolean" then
          set (k +:+ "@odata.type") dtype (set k (VString (Sprint v)) st)
        else if is_string dtype "Edm.Double" then
          set (k +:+ "@odata.type") dtype (set k (VString (Sprintf_f v)) st)
        else if is_string dtype "Edm.Int32" || is_string dtype "Edm.Int64" then
          set (k +:+ "@odata.type") dtype (set k (VString (Sprint v)) st)
        else if is_string dtype "Edm.String" then
          set (k +:+ "@odata.type") dtype (set k v st)
        else
          warn (UnexpectedOdataType k dtype) st
    | None =>
        match v with
        | VBool _ =>
            set (k +:+ "@odata.type") (VString "Edm.Boolean")
                (set k (VString (Sprint v)) st)
        | VFloat f64 =>
            if eqb f64 (of_int64 (to_int64 f64)) then
              set (k +:+ "@odata.type") (VString "Edm.Int32")
                  (set k (VString (FormatInt (to_int64 f64))) st)
            else
              set (k +:+ "@odata.type") (VString "Edm.Double")
                  (set k (VString (Sprint v)) st)
        | VString _ => set k v st
        | VOther _ _ => warn (UnexpectedType k v) st
        end
    end.

(** The loop, over the pairs of [entity] in the order [order] in which
    [range] happens to visit them. *)
Definition flattenRange (entity : Entity) (order : list (string * value))
    : state :=
  fold_left (fun st kv => flattenProperty entity st kv.1 kv.2) order
            {| result := ∅; logged := [] |}.

(** The three [delete] calls on the caller's map. *)
Definition deleteReserved (entity : Entity) : Entity :=
  delete "Timestamp" (delete "RowKey" (delete "PartitionKey" entity)).

(** A call leaves the caller's map in the state [entity_after] (a Go map
    is shared with the caller, and the function deletes from it),
    returns the fresh map [returned] and logs [warnings]. *)
Record outcome : Type :=
  { entity_after : Entity; returned : Entity; warnings : list warning }.

Definition flattenEntityIn (order : Entity -> list (string * value))
    (entity : Entity) : outcome :=
  let entity := deleteReserved entity in
  let st := flattenRange entity (order entity) in
  {| entity_after := entity; returned := result st; warnings := logged st |}.

(** [flattenEntity], with the pairs visited in the order of
    [map_to_list]; [flattenEntityIn_order] shows that neither the map
    returned nor the caller's map depends on that order. *)
Definition flattenEntity (entity : Entity) : outcome :=
  flattenEntityIn map_to_list entity.

(** The entries one pass of the loop body writes into [result]. *)
Definition written (entity : Entity) (k : string) (v : value) : Entity :=
  result (flattenProperty entity {| result := ∅; logged := [] |} k v).

(** The lines one pass of the loop body logs. *)
Definition warned (entity : Entity) (k : string) (v : value) : list warning :=
  logged (flattenProperty entity {| result := ∅; logged := [] |} k v).

End Flatten.

(** *** Vocabulary of the statements *)

(** The keys deleted up front. *)
Definition reserved (k : string) : bool :=
  String.eqb k "PartitionKey" || String.eqb k "RowKey"
  || String.eqb k "Timestamp".

(** The keys the loop passes over: service metadata and annotations. *)
Definition metadata (k : string) : bool :=
  HasPrefix k "odata." || HasSuffix k "@odata.type".

(** The type names of the [switch dtype]. *)
Definition recognized (dtype : value) : bool :=
  is_string dtype "Edm.Boolean" || is_string dtype "Edm.Double"
  || is_string dtype "Edm.Int32" || is_string dtype "Edm.Int64"
  || is_string dtype "Edm.String".

(** The native kinds of the type switch. *)
Definition native (v : value) : bool :=
  match v with
  | VBool _ | VFloat _ | VString _ => true
  | VOther _ _ => false
  end.

(** A property of the input that the loop processes: a key of the entity
    that is neither reserved nor metadata. *)
Definition property_of (entity : Entity) (k : string) : Prop :=
  is_Some (entity !! k) ∧ reserved k = false ∧ metadata k = false.

(** A property the loop can translate: a key that is neither reserved
    nor metadata, with a recognized annotation or, without annotation, a
    value of a native kind. *)
Definition translatable (entity : Entity) (k : string) (v : value) : bool :=
  negb (reserved k) && negb (metadata k)
  && match entity !! (k +:+ "@odata.type") with
     | Some dtype => recognized dtype
     | None => native v
     end.

End TableEntity.

(** ** Concrete entities *)

Module Scenarios.
Import Float64 TableEntity.

(** The entity of the end-to-end scenario and its flattened form. *)
Definition scenario : Entity :=
  list_to_map
    [("PartitionKey", VString "p"); ("RowKey", VString "r");
     ("Timestamp", VString "t");
     ("count", VFloat (of_int64 3)); ("count@odata.type", VString "Edm.Int64");
     ("active", VBool true); ("name", VString "x")].

Definition scenario_flat : Entity :=
  list_to_map
    [("count", VString "3"); ("count@odata.type", VString "Edm.Int64");
     ("active", VString "true"); ("active@odata.type", VString "Edm.Boolean");
     ("name", VString "x")].

(** The double [123.123] of the comment in [flattenEntity], with and
    without its annotation. *)
Definition annotated_double : Entity :=
  list_to_map
    [("x", VFloat (of_ratio 123123 1000)); ("x@odata.type", VString "Edm.Double")].

Definition plain_double : Entity :=
  list_to_map [("x", VFloat (of_ratio 123123 1000))].

(** An entity with a null property. *)
Definition with_null : Entity :=
  list_to_map [("gone", VNil); ("name", VString "x")].

(** An entity with one property of a type the switch does not know. *)
Definition unsupported : Entity :=
  list_to_map
    [("status", VString "on"); ("status@odata.type", VString "Edm.Unsupported");
     ("name", VString "x"); ("size", VFloat (of_int64 42))].

Definition whole_number : Entity := list_to_map [("n", VFloat (of_int64 42))].

Definition fractional : Entity := list_to_map [("ratio", VFloat (of_ratio 7 2))].

Definition with_metadata : Entity :=
  list_to_map
    [("odata.etag", VString "W/1"); ("foo", VString "a");
     ("foo@odata.type", VString "Edm.String"); ("RowKey", VString "r")].

Definition orphan : Entity :=
  list_to_map [("ghost@odata.type", VString "Edm.Int32"); ("name", VString "x")].

(** An annotation key that carries an annotation of its own. *)
Definition nested_annotation : Entity :=
  list_to_map
    [("a", VBool true); ("a@odata.type@odata.type", VString "Edm.String")].

End Scenarios.

(** ** Vocabulary of the further statements on the entity *)

Module TableEntityMore.
Import TableEntity.

(** The key a logged line is about. *)
Definition warning_key (w : warning) : string :=
  match w with
  | UnexpectedOdataType k _ | UnexpectedType k _ => k
  end.

End TableEntityMore.

(** ** Container access levels and table ACLs *)

Module StorageContainer.

(** [containers.AccessLevel], a string type.  The constant
    [containers.Private] is declared outside this source; the functions take
    it as [Private]. *)
Section AccessLevel.
Variable Private : string.

(** [expandStorageContainerAccessLevel] *)
Definition expandStorageContainerAccessLevel (input : string) : string :=
  if String.eqb input "private" then Private else input.

(** [flattenStorageContainerAccessLevel] *)
Definition flattenStorageContainerAccessLevel (input : string) : string :=
  if String.eqb input Private then "private" else input.

End AccessLevel.

End StorageContainer.

Module StorageTable.

#[local] Set Warnings "-register-all".

(** The values of the schema data handed to the resource functions: an
    [interface{}] holding a [string], a [[]interface{}] or a
    [map[string]interface{}]. *)
Inductive dyn : Type :=
| DString (s : string)
| DList (l : list dyn)
| DMap (m : gmap string dyn).

(** The type assertions [v.(string)], [v.([]interface{})] and
    [v.(map[string]interface{})]: they panic ([None]) on a value of another
    type, and on the nil interface that a missing map key yields. *)
Definition as_string (v : option dyn) : option string :=
  match v with Some (DString s) => Some s | _ => None end.

Definition as_list (v : option dyn) : option (list dyn) :=
  match v with Some (DList l) => Some l | _ => None end.

Definition as_map (v : option dyn) : option (gmap string dyn) :=
  match v with Some (DMap m) => Some m | _ => None end.

(** [tables.AccessPolicy] and [tables.SignedIdentifier] *)
Record AccessPolicy : Type :=
  { Start : string; Expiry : string; Permission : string }.

Record SignedIdentifier : Type :=
  { Id : string; AccessPolicy_ : AccessPolicy }.

(** The body of the loop of [expandStorageTableACLs]; [policies[0]] panics
    on an empty list. *)
Definition expandACL (v : dyn) : option SignedIdentifier :=
  vals ← as_map (Some v);
  policies ← as_list (vals !! "access_policy");
  policy ← as_map (policies !! 0%nat);
  id ← as_string (vals !! "id");
  start ← as_string (policy !! "start");
  expiry ← as_string (policy !! "expiry");
  permission ← as_string (policy !! "permissions");
  Some {| Id := id;
          AccessPolicy_ := {| Start := start; Expiry := expiry;
                              Permission := permission |} |}.

(** [expandStorageTableACLs]; [None] is a run-time panic. *)
Fixpoint expandStorageTableACLs (input : list dyn)
    : option (list SignedIdentifier) :=
  match input with
  | [] => Some []
  | v :: rest =>
      identifier ← expandACL v;
      results ← expandStorageTableACLs rest;
      Some (identifier :: results)
  end.

(** The map built for one identifier in [flattenStorageTableACLs]. *)
Definition flattenACL (v : SignedIdentifier) : dyn :=
  DMap {[ "id" := DString (Id v);
          "access_policy" :=
            DList [DMap {[ "start" := DString (Start (AccessPolicy_ v));
                           "expiry" := DString (Expiry (AccessPolicy_ v));
                           "permissions" :=
                             DString (Permission (AccessPolicy_ v)) ]}] ]}.

(** [flattenStorageTableACLs], of a [*[]tables.SignedIdentifier]. *)
Definition flattenStorageTableACLs (input : option (list SignedIdentifier))
    : list dyn :=
  match input with
  | None => []
  | Some l => map flattenACL l
  end.

End StorageTable.

(** ** The data plane clients of the storage services *)

Module GoStringsMore.
Import GoStrings.

(** [strings.TrimSuffix(s, suffix)]: [s] without the suffix when it ends
    with it, [s] otherwise. *)
Definition TrimSuffix (s suffix : string) : string :=
  if HasSuffix s suffix
  then substring 0 (String.length s - String.length suffix) s
  else s.

End GoStringsMore.

Module StorageClient.
Import GoStrings GoStringsMore.

(** The endpoints of an account, the [*string] fields of
    [PrimaryEndpoints] that the package reads. *)
Record Endpoints : Type :=
  { Blob : option string; File : option string;
    Queue : option string; Table : option string }.

Record AccountProperties : Type := { PrimaryEndpoints : option Endpoints }.

(** [accountDetails], with the fields the package reads. *)
Record accountDetails : Type :=
  { name : string; ResourceGroup : string;
    Properties : option AccountProperties }.

(** [auth.SharedKeyType]; [SharedKeyUnset] is the zero value of a
    [DataPlaneOperation] built without it. *)
Inductive SharedKeyType : Type := SharedKeyUnset | SharedKey | SharedKeyTable.

Record DataPlaneOperation : Type :=
  { SupportsAadAuthentication : bool;
    SupportsSharedKeyAuthentication : bool;
    sharedKeyAuthenticationType : SharedKeyType }.

(** An authorizer: the one configured for AAD, named by [aad], or a shared
    key authorizer, recorded by the arguments it was built from. *)
Inductive Authorizer : Type :=
| AadAuthorizer (aad : string)
| SharedKeyAuthorizer (accountName accountKey : string) (keyType : SharedKeyType).

(** The errors of the package, one constructor per [fmt.Errorf], with the
    operands of its format; [cause] is the text of the error wrapped. *)
Inductive error : Type :=
| NoProperties (account : string)
| MissingEndpoints (account : string)
| UnrecognisedEndpointType (endpointType : string)
| UndeterminedEndpoint (endpointType account : string)
| RetrievingAccountKey (cause : string)
| BuildingAuthorizer (clientName cause : string)
| NoSupportedAuthentication (clientName : string)
| BuildingClient (clientName cause : string).

Definition EndpointTypeBlob : string := "blob".
Definition EndpointTypeFile : string := "file".
Definition EndpointTypeQueue : string := "queue".
Definition EndpointTypeTable : string := "table".

(** The base URI a [case] of the switch picks: empty when the endpoint is
    nil. *)
Definition trimmed (endpoint : option string) : string :=
  match endpoint with
  | Some uri => TrimSuffix uri "/"
  | None => ""
  end.

(** [dataPlaneEndpoint] *)
Definition dataPlaneEndpoint (account : accountDetails) (endpointType : string)
    : error + string :=
  match Properties account with
  | None => inl (NoProperties (name account))
  | Some properties =>
      match PrimaryEndpoints properties with
      | None => inl (MissingEndpoints (name account))
      | Some endpoints =>
          let chosen :=
            if String.eqb endpointType EndpointTypeBlob then
              Some (trimmed (Blob endpoints))
            else if String.eqb endpointType EndpointTypeFile then
              Some (trimmed (File endpoints))
            else if String.eqb endpointType EndpointTypeQueue then
              Some (trimmed (Queue endpoints))
            else if String.eqb endpointType EndpointTypeTable then
              Some (trimmed (Table endpoints))
            else None in
          match chosen with
          | None => inl (UnrecognisedEndpointType endpointType)
          | Some baseUri =>
              if String.eqb baseUri ""
              then inl (UndeterminedEndpoint endpointType (name account))
              else inr baseUri
          end
      end
  end.

(** [Client.DataPlaneOperationSupportingAnyAuthMethod] *)
Definition DataPlaneOperationSupportingAnyAuthMethod : DataPlaneOperation :=
  {| SupportsAadAuthentication := true;
     SupportsSharedKeyAuthentication := true;
     sharedKeyAuthenticationType := SharedKeyUnset |}.

(** [Client.DataPlaneOperationSupportingOnlySharedKeyAuth] *)
Definition DataPlaneOperationSupportingOnlySharedKeyAuth : DataPlaneOperation :=
  {| SupportsAadAuthentication := false;
     SupportsSharedKeyAuthentication := true;
     sharedKeyAuthenticationType := SharedKeyUnset |}.

(** The storage [Client], with the fields read: the authorizer for AAD,
    nil when AAD is not configured, and the domain suffix of the storage
    endpoints. *)
Record Client : Type :=
  { authorizerForAad : option string; StorageDomainSuffix : string }.

(** An API client of a service: the base URI it was built with and the
    authorizer set on it. *)
Record ApiClient : Type :=
  { baseUri : string; authorizer : option Authorizer }.

Definition SetAuthorizer (a : Authorizer) (c : ApiClient) : ApiClient :=
  {| baseUri := baseUri c; authorizer := Some a |}.

(** The level of metadata asked of the table service,
    [entities.MetaDataLevel]. *)
Inductive MetaDataLevel : Type := NoMetaData | MinimalMetaData | FullMetaData.

(** The calls that leave the process, in the order a run makes them: to
    the management API ([account.AccountKey], [Client.FindAccount]) and,
    through a client this package built, to the table service. *)
Inductive call : Type :=
| AskAccountKey (account : string)
| AskFindAccount (account : string)
| EntityGet (c : ApiClient) (table partitionKey rowKey : string)
    (level : MetaDataLevel)
| EntityInsertOrMerge (c : ApiClient) (table partitionKey rowKey : string)
    (entity : TableEntity.Entity)
| EntityDelete (c : ApiClient) (table partitionKey rowKey : string).

(** What lies outside the package.  [AccountKey] answers with the key of
    the account or with the text of an error, and its answer may depend on
    the calls made before; [NewSharedKeyAuthorizer] and [NewWithBaseUri]
    (of the package of the client named) may refuse their arguments, with
    the text of an error. *)
Class Services : Type :=
  { AccountKey : list call → accountDetails → string + string;
    NewSharedKeyAuthorizer : string → string → SharedKeyType → option string;
    NewWithBaseUri : string → string → option string }.

(** A run threads a state, here the trace of the calls made, and stops at
    the first error. *)
Definition Run (S E A : Type) : Type := S → (E + A) * S.

Definition ret {S E A} (x : A) : Run S E A := λ s, (inr x, s).

Definition fail {S E A} (e : E) : Run S E A := λ s, (inl e, s).

Definition bind {S E A B} (m : Run S E A) (k : A → Run S E B) : Run S E B :=
  λ s,
    match m s with
    | (inl e, s') => (inl e, s')
    | (inr x, s') => k x s'
    end.

Notation "x <- m ;; k" := (bind m (λ x, k))
  (at level 100, m at next level, right associativity).

Section Clients.
Context `{Services}.

(** [account.AccountKey(ctx, client)], with the error
    [ConfigureDataPlane] makes of its failure. *)
Definition accountKey (account : accountDetails)
    : Run (list call) error string :=
  λ trace,
    (match AccountKey trace account with
     | inl cause => inl (RetrievingAccountKey cause)
     | inr key => inr key
     end, trace ++ [AskAccountKey (name account)]).

(** [Client.ConfigureDataPlane]: the base client comes back with its
    authorizer set. *)
Definition ConfigureDataPlane (client : Client) (clientName : string)
    (baseClient : ApiClient) (account : accountDetails)
    (operation : DataPlaneOperation) : Run (list call) error ApiClient :=
  match SupportsAadAuthentication operation, authorizerForAad client with
  | true, Some aad => ret (SetAuthorizer (AadAuthorizer aad) baseClient)
  | _, _ =>
      if SupportsSharedKeyAuthentication operation then
        key <- accountKey account ;;
        match NewSharedKeyAuthorizer (name account) key
                (sharedKeyAuthenticationType operation) with
        | Some cause => fail (BuildingAuthorizer clientName cause)
        | None =>
            ret (SetAuthorizer
                   (SharedKeyAuthorizer (name account) key
                      (sharedKeyAuthenticationType operation))
                   baseClient)
        end
      else fail (NoSupportedAuthentication clientName)
  end.

(** The body the constructors of the data plane clients share, for the
    client name, the shared key type and the endpoint type of each; the
    wrappers of [shim] that some of them put around the client are left
    out. *)
Definition dataPlaneClient (clientName : string) (keyType : SharedKeyType)
    (endpointType : string) (client : Client) (account : accountDetails)
    (operation : DataPlaneOperation) : Run (list call) error ApiClient :=
  let operation :=
    {| SupportsAadAuthentication := SupportsAadAuthentication operation;
       SupportsSharedKeyAuthentication :=
         SupportsSharedKeyAuthentication operation;
       sharedKeyAuthenticationType := keyType |} in
  match dataPlaneEndpoint account endpointType with
  | inl e => fail e
  | inr uri =>
      match NewWithBaseUri clientName uri with
      | Some cause => fail (BuildingClient clientName cause)
      | None =>
          ConfigureDataPlane client clientName
            {| baseUri := uri; authorizer := None |} account operation
      end
  end.

(** [Client.ContainersDataPlaneClient] *)
Definition ContainersDataPlaneClient :=
  dataPlaneClient "Blob Storage Containers" SharedKey EndpointTypeBlob.

(** [Client.TableEntityDataPlaneClient] *)
Definition TableEntityDataPlaneClient :=
  dataPlaneClient "Table Storage Share Entities" SharedKeyTable
    EndpointTypeTable.

(** [Client.TablesDataPlaneClient] *)
Definition TablesDataPlaneClient :=
  dataPlaneClient "Table Storage Share Tables" SharedKeyTable
    EndpointTypeTable.

End Clients.

(** *** Vocabulary of the statements *)

(** The endpoint of the account for an endpoint type; [None] for a type
    outside the four. *)
Definition endpoint_of (endpoints : Endpoints) (endpointType : string)
    : option (option string) :=
  if String.eqb endpointType EndpointTypeBlob then Some (Blob endpoints)
  else if String.eqb endpointType EndpointTypeFile then Some (File endpoints)
  else if String.eqb endpointType EndpointTypeQueue then Some (Queue endpoints)
  else if String.eqb endpointType EndpointTypeTable then Some (Table endpoints)
  else None.

End StorageClient.

(** ** The table entity resource *)

Module TableEntityResource.
Import Float64 TableEntity StorageClient.

(** [accounts.AccountId], with the fields read, and [entities.EntityId]. *)
Record AccountId : Type := { AccountName : string; DomainSuffix : string }.

Record EntityId : Type :=
  { AccountId_ : AccountId; TableName : string;
    PartitionKey : string; RowKey : string }.

(** [entities.NewEntityID] *)
Definition NewEntityID (accountId : AccountId)
    (tableName partitionKey rowKey : string) : EntityId :=
  {| AccountId_ := accountId; TableName := tableName;
     PartitionKey := partitionKey; RowKey := rowKey |}.

(** The [*pluginsdk.ResourceData] of the resource: its id, whether it is
    being created, and the fields of its schema. *)
Record ResourceData : Type :=
  { Id : string; IsNewResource : bool;
    storage_account_name : string; table_name : string;
    partition_key : string; row_key : string; entity : Entity }.

(** What [client.Get] returns beside its error: the HTTP response, by its
    status code, nil when there is none, and the entity. *)
Record GetEntityResult : Type :=
  { HttpResponse : option Z; Entity_ : Entity }.

(** [response.WasNotFound]: there is a response and its status is 404. *)
Definition WasNotFound (resp : option Z) : bool :=
  match resp with
  | Some status => status =? 404
  | None => false
  end.

(** The errors of the resource, one constructor per error returned, with
    the operands of its format; [cause] is the text of the error wrapped. *)
Inductive rerror : Type :=
| RetrievingAccount (account table cause : string)
| LocatingAccount (account table : string)
| ParsingAccountID (cause : string)
| BuildingEntityClient (e : error)
| CheckingExisting (id : EntityId) (cause : string)
| ImportAsExistsError (resource id : string)
| Creating (id : EntityId) (cause : string)
| ParsingEntityID (cause : string)
| BuildingTableEntityClient (account resourceGroup : string) (e : error)
| RetrievingEntity (id : EntityId) (cause : string)
| SettingEntity (id : EntityId) (cause : string)
| RetrievingStorageAccount (account table cause : string)
| LocatingStorageAccount (account : string)
| BuildingEntityClientFor (account resourceGroup : string) (e : error)
| Deleting (id : EntityId) (cause : string).

(** What lies outside the resource: the lookup of the account, the parsers
    and the printer of the ids, the calls of the entity client, whose
    answers may depend on the calls made before, and the check [d.Set]
    makes of the map stored under [entity]. *)
Class Remote : Type :=
  { FindAccount : list call → string → string + option accountDetails;
    ParseAccountID : string → string → string + AccountId;
    ParseEntityID : string → string → string + EntityId;
    EntityID : EntityId → string;
    Get : list call → ApiClient → string → string → string → MetaDataLevel
          → GetEntityResult * option string;
    InsertOrMerge : list call → ApiClient → string → string → string → Entity
                    → option string;
    Delete : list call → ApiClient → string → string → string → option string;
    SetEntityError : Entity → option string }.

(** A run of a resource function threads the trace of the calls made and
    the resource data, which it updates in place. *)
Record world : Type := { trace : list call; d : ResourceData }.

Definition Op (A : Type) : Type := Run world rerror A.

Notation "x <- m ;; k" := (bind m (λ x, k))
  (at level 100, m at next level, right associativity).

Definition getData : Op ResourceData := λ w, (inr (d w), w).

Definition modify (f : ResourceData → ResourceData) : Op unit :=
  λ w, (inr tt, {| trace := trace w; d := f (d w) |}).

(** [d.SetId] and the [d.Set] of each field. *)
Definition SetId (id : string) : Op unit :=
  modify (λ d, {| Id := id; IsNewResource := IsNewResource d;
                  storage_account_name := storage_account_name d;
                  table_name := table_name d;
                  partition_key := partition_key d; row_key := row_key d;
                  entity := entity d |}).

Definition Set_storage_account_name (v : string) : Op unit :=
  modify (λ d, {| Id := Id d; IsNewResource := IsNewResource d;
                  storage_account_name := v; table_name := table_name d;
                  partition_key := partition_key d; row_key := row_key d;
                  entity := entity d |}).

Definition Set_table_name (v : string) : Op unit :=
  modify (λ d, {| Id := Id d; IsNewResource := IsNewResource d;
                  storage_account_name := storage_account_name d;
                  table_name := v;
                  partition_key := partition_key d; row_key := row_key d;
                  entity := entity d |}).

Definition Set_partition_key (v : string) : Op unit :=
  modify (λ d, {| Id := Id d; IsNewResource := IsNewResource d;
                  storage_account_name := storage_account_name d;
                  table_name := table_name d;
                  partition_key := v; row_key := row_key d;
                  entity := entity d |}).

Definition Set_row_key (v : string) : Op unit :=
  modify (λ d, {| Id := Id d; IsNewResource := IsNewResource d;
                  storage_account_name := storage_account_name d;
                  table_name := table_name d;
                  partition_key := partition_key d; row_key := v;
                  entity := entity d |}).

Section Resource.
Context `{Arch} `{Services} `{Remote}.

(** [d.Set("entity", v)]: the map is kept as handed over, unless it is
    refused. *)
Definition Set_entity (v : Entity) : Op (option string) :=
  match SetEntityError v with
  | Some cause => ret (Some cause)
  | None =>
      _ <- modify (λ d, {| Id := Id d; IsNewResource := IsNewResource d;
                           storage_account_name := storage_account_name d;
                           table_name := table_name d;
                           partition_key := partition_key d;
                           row_key := row_key d; entity := v |}) ;;
      ret None
  end.

(** A call that leaves the process: the answer is asked with the trace so
    far, and the call joins the trace. *)
Definition perform {A} (answer : list call → A) (c : call) : Op A :=
  λ w, (inr (answer (trace w)), {| trace := trace w ++ [c]; d := d w |}).

(** The constructor of a client, run on the trace, its error wrapped. *)
Definition build (m : Run (list call) error ApiClient)
    (wrap : error → rerror) : Op ApiClient :=
  λ w,
    match m (trace w) with
    | (inl e, trace') => (inl (wrap e), {| trace := trace'; d := d w |})
    | (inr c, trace') => (inr c, {| trace := trace'; d := d w |})
    end.

(** [resourceStorageTableEntityRead] *)
Definition resourceStorageTableEntityRead (storageClient : Client) : Op unit :=
  data <- getData ;;
  match ParseEntityID (Id data) (StorageDomainSuffix storageClient) with
  | inl cause => fail (ParsingEntityID cause)
  | inr id =>
      found <- perform (λ t, FindAccount t (AccountName (AccountId_ id)))
                 (AskFindAccount (AccountName (AccountId_ id))) ;;
      match found with
      | inl cause =>
          fail (RetrievingAccount (AccountName (AccountId_ id))
                  (TableName id) cause)
      | inr None => SetId ""
      | inr (Some account) =>
          client <- build
                      (TableEntityDataPlaneClient storageClient account
                         DataPlaneOperationSupportingAnyAuthMethod)
                      (BuildingTableEntityClient
                         (AccountName (AccountId_ id))
                         (ResourceGroup account)) ;;
          got <- perform
                   (λ t, Get t client (TableName id) (PartitionKey id)
                           (RowKey id) FullMetaData)
                   (EntityGet client (TableName id) (PartitionKey id)
                      (RowKey id) FullMetaData) ;;
          match got with
          | (_, Some cause) => fail (RetrievingEntity id cause)
          | (result, None) =>
              _ <- Set_storage_account_name (AccountName (AccountId_ id)) ;;
              _ <- Set_table_name (TableName id) ;;
              _ <- Set_partition_key (PartitionKey id) ;;
              _ <- Set_row_key (RowKey id) ;;
              refused <- Set_entity
                           (returned (flattenEntity (Entity_ result))) ;;
              match refused with
              | Some cause => fail (SettingEntity id cause)
              | None => ret tt
              end
          end
      end
  end.

(** [resourceStorageTableEntityCreateUpdate] *)
Definition resourceStorageTableEntityCreateUpdate (storageClient : Client)
    : Op unit :=
  data <- getData ;;
  let accountName := storage_account_name data in
  let tableName := table_name data in
  let partitionKey := partition_key data in
  let rowKey := row_key data in
  let entity := entity data in
  found <- perform (λ t, FindAccount t accountName)
             (AskFindAccount accountName) ;;
  match found with
  | inl cause => fail (RetrievingAccount accountName tableName cause)
  | inr None =>
      if IsNewResource data then fail (LocatingAccount accountName tableName)
      else SetId ""
  | inr (Some account) =>
      match ParseAccountID accountName (StorageDomainSuffix storageClient) with
      | inl cause => fail (ParsingAccountID cause)
      | inr accountId =>
          let id := NewEntityID accountId tableName partitionKey rowKey in
          client <- build
                      (TableEntityDataPlaneClient storageClient account
                         DataPlaneOperationSupportingAnyAuthMethod)
                      BuildingEntityClient ;;
          _ <- (if IsNewResource data then
                  got <- perform
                           (λ t, Get t client tableName partitionKey rowKey
                                   NoMetaData)
                           (EntityGet client tableName partitionKey rowKey
                              NoMetaData) ;;
                  let '(existing, err) := got in
                  match err with
                  | Some cause =>
                      if negb (WasNotFound (HttpResponse existing))
                      then fail (CheckingExisting id cause)
                      else ret tt
                  | None =>
                      if negb (WasNotFound (HttpResponse existing))
                      then fail (ImportAsExistsError
                                   "azurerm_storage_table_entity" (EntityID id))
                      else ret tt
                  end
                else ret tt) ;;
          failed <- perform
                      (λ t, InsertOrMerge t client tableName partitionKey
                              rowKey entity)
                      (EntityInsertOrMerge client tableName partitionKey
                         rowKey entity) ;;
          match failed with
          | Some cause => fail (Creating id cause)
          | None =>
              _ <- SetId (EntityID id) ;;
              resourceStorageTableEntityRead storageClient
          end
      end
  end.

(** [resourceStorageTableEntityDelete] *)
Definition resourceStorageTableEntityDelete (storageClient : Client) : Op unit :=
  data <- getData ;;
  match ParseEntityID (Id data) (StorageDomainSuffix storageClient) with
  | inl cause => fail (ParsingEntityID cause)
  | inr id =>
      found <- perform (λ t, FindAccount t (AccountName (AccountId_ id)))
                 (AskFindAccount (AccountName (AccountId_ id))) ;;
      match found with
      | inl cause =>
          fail (RetrievingStorageAccount (AccountName (AccountId_ id))
                  (TableName id) cause)
      | inr None => fail (LocatingStorageAccount (AccountName (AccountId_ id)))
      | inr (Some account) =>
          client <- build
                      (TableEntityDataPlaneClient storageClient account
                         DataPlaneOperationSupportingAnyAuthMethod)
                      (BuildingEntityClientFor
                         (AccountName (AccountId_ id))
                         (ResourceGroup account)) ;;
          failed <- perform
                      (λ t, Delete t client (TableName id) (PartitionKey id)
                              (RowKey id))
                      (EntityDelete client (TableName id) (PartitionKey id)
                         (RowKey id)) ;;
          match failed with
          | Some cause => fail (Deleting id cause)
          | None => ret tt
          end
      end
  end.

End Resource.

(** *** Vocabulary of the statements *)

(** The calls that change nothing outside the process. *)
Definition read_only (c : call) : bool :=
  match c with
  | EntityInsertOrMerge _ _ _ _ _ | EntityDelete _ _ _ _ => false
  | _ => true
  end.

(** The client a call to the table service goes through. *)
Definition call_client (c : call) : option ApiClient :=
  match c with
  | EntityGet c _ _ _ _ | EntityInsertOrMerge c _ _ _ _
  | EntityDelete c _ _ _ => Some c
  | _ => None
  end.

(** The authorizers of a client of the table service: the one for AAD, or
    a shared key of the table kind. *)
Definition authorized_for_tables (c : ApiClient) : Prop :=
  (∃ aad, authorizer c = Some (AadAuthorizer aad))
  ∨ ∃ account key,
      authorizer c = Some (SharedKeyAuthorizer account key SharedKeyTable).

End TableEntityResource.

(** ** Concrete services *)

Module StorageScenarios.
Import TableEntity StorageClient TableEntityResource Scenarios.

(** An account with a table endpoint. *)
Definition account1 : accountDetails :=
  {| name := "acct"; ResourceGroup := "rg";
     Properties :=
       Some {| PrimaryEndpoints :=
                 Some {| Blob := Some "https://acct.blob.core.windows.net/";
                         File := None; Queue := None;
                         Table := Some "https://acct.table.core.windows.net/" |} |} |}.

(** Services that never refuse. *)
Definition services1 : Services :=
  {| AccountKey := λ _ _, inr "key";
     NewSharedKeyAuthorizer := λ _ _ _, None;
     NewWithBaseUri := λ _ _, None |}.

Definition client_aad : Client :=
  {| authorizerForAad := Some "aad"; StorageDomainSuffix := "core.windows.net" |}.

Definition client_key : Client :=
  {| authorizerForAad := None; StorageDomainSuffix := "core.windows.net" |}.

Definition id1 : EntityId :=
  {| AccountId_ := {| AccountName := "acct"; DomainSuffix := "core.windows.net" |};
     TableName := "t"; PartitionKey := "p"; RowKey := "r" |}.

(** A table service that holds the entity of the scenario under every
    key, and an account lookup that knows [acct] only. *)
Definition remote1 : Remote :=
  {| FindAccount := λ _ account,
       inr (if String.eqb account "acct" then Some account1 else None);
     ParseAccountID := λ account suffix,
       inr {| AccountName := account; DomainSuffix := suffix |};
     ParseEntityID := λ _ _, inr id1;
     EntityID := λ _, "https://acct.table.core.windows.net/t(PartitionKey='p',RowKey='r')";
     Get := λ _ _ _ _ _ _,
       ({| HttpResponse := Some 200; Entity_ := scenario |}, None);
     InsertOrMerge := λ _ _ _ _ _ _, None;
     Delete := λ _ _ _ _ _, None;
     SetEntityError := λ _, None |}.

(** The same, with a table service that holds nothing. *)
Definition remote_empty : Remote :=
  {| FindAccount := FindAccount (Remote := remote1);
     ParseAccountID := ParseAccountID (Remote := remote1);
     ParseEntityID := ParseEntityID (Remote := remote1);
     EntityID := EntityID (Remote := remote1);
     Get := λ _ _ _ _ _ _,
       ({| HttpResponse := Some 404; Entity_ := ∅ |}, Some "not found");
     InsertOrMerge := λ _ _ _ _ _ _, None;
     Delete := λ _ _ _ _ _, None;
     SetEntityError := λ _, None |}.

(** A table service that holds nothing until something is written, and
    the entity of the scenario from then on. *)
Definition remote_store : Remote :=
  {| FindAccount := FindAccount (Remote := remote1);
     ParseAccountID := ParseAccountID (Remote := remote1);
     ParseEntityID := ParseEntityID (Remote := remote1);
     EntityID := EntityID (Remote := remote1);
     Get := λ history _ _ _ _ _,
       if forallb read_only history
       then ({| HttpResponse := Some 404; Entity_ := ∅ |}, Some "not found")
       else ({| HttpResponse := Some 200; Entity_ := scenario |}, None);
     InsertOrMerge := λ _ _ _ _ _ _, None;
     Delete := λ _ _ _ _ _, None;
     SetEntityError := λ _, None |}.

Definition data1 (isNew : bool) : ResourceData :=
  {| Id := "https://acct.table.core.windows.net/t(PartitionKey='p',RowKey='r')";
     IsNewResource := isNew;
     storage_account_name := "acct"; table_name := "t";
     partition_key := "p"; row_key := "r";
     entity := {[ "name" := VString "x" ]} |}.

Definition world1 (isNew : bool) : world :=
  {| trace := []; d := data1 isNew |}.

End StorageScenarios.

(** ** Facts on [strings] *)

Module GoStringsFacts.
Import GoStrings.

Lemma length_app (s t : string) :
  String.length (s +:+ t) = (String.length s + String.length t)%nat.
Proof. induction s as [|a s IH]; simpl; [done|]. unfold String.app in *. simpl. by rewrite IH. Qed.

Lemma substring_all (t : string) : substring 0 (String.length t) t = t.
Proof. induction t as [|a t IH]; simpl; [done|]. by rewrite IH. Qed.

Lemma substring_app_r (s t : string) :
  substring (String.length s) (String.length t) (s +:+ t) = t.
Proof.
  induction s as [|a s IH]; unfold String.app in *; simpl.
  - apply substring_all.
  - apply IH.
Qed.

Lemma substring_split (s : string) (n : nat) :
  (n <= String.length s)%nat →
  s = substring 0 n s +:+ substring n (String.length s - n) s.
Proof.
  revert n. induction s as [|a s IH]; intros [|n] Hn; simpl in *; try lia.
  - done.
  - unfold String.app. simpl. by rewrite substring_all.
  - unfold String.app in *. simpl. f_equal. apply IH. lia.
Qed.

Lemma app_inj_r (s1 s2 t : string) : s1 +:+ t = s2 +:+ t → s1 = s2.
Proof.
  revert s2. induction s1 as [|a s1 IH]; intros [|b s2] Heq; unfold String.app in *; simpl in *.
  - done.
  - apply (f_equal String.length) in Heq. simpl in Heq.
    pose proof (length_app s2 t) as Hl. unfold String.app in Hl. lia.
  - apply (f_equal String.length) in Heq. simpl in Heq.
    pose proof (length_app s1 t) as Hl. unfold String.app in Hl. lia.
  - injection Heq as -> Heq. f_equal. by apply IH.
Qed.

Lemma HasSuffix_app (s t : string) : HasSuffix (s +:+ t) t = true.
Proof.
  unfold HasSuffix. rewrite length_app.
  replace (String.length s + String.length t - String.length t)%nat
    with (String.length s) by lia.
  rewrite substring_app_r, String.eqb_refl, andb_true_r.
  apply Nat.leb_le. lia.
Qed.

Lemma HasSuffix_inv (s t : string) :
  HasSuffix s t = true → ∃ r, s = r +:+ t.
Proof.
  unfold HasSuffix. intros [Hlen Heq]%andb_true_iff.
  apply Nat.leb_le in Hlen. apply String.eqb_eq in Heq.
  exists (substring 0 (String.length s - String.length t) s).
  pose proof (substring_split s (String.length s - String.length t)) as Hs.
  replace (String.length s - (String.length s - String.length t))%nat
    with (String.length t) in Hs by lia.
  rewrite Heq in Hs. apply Hs. lia.
Qed.

Lemma HasSuffix_false_app (k k' t : string) :
  HasSuffix k t = false → k ≠ k' +:+ t.
Proof. intros Hk ->. by rewrite HasSuffix_app in Hk. Qed.

(** A key that does not start with [odata.] does not start with it once
    [@odata.type] is appended. *)
Lemma HasPrefix_odata_app (k : string) :
  HasPrefix k "odata." = false →
  HasPrefix (k +:+ "@odata.type") "odata." = false.
Proof.
  unfold HasPrefix.
  destruct k as [|a1 [|a2 [|a3 [|a4 [|a5 [|a6 k]]]]]];
    unfold String.app; simpl; intros Hk;
    repeat (destruct (Ascii.eqb _ _)); try done.
  by destruct k.
Qed.
End GoStringsFacts.

(** ** The walk of the shortest notation *)

Module GoFmtFacts.
Import Float64 GoFmt.

Lemma ndigits_pos n : 1 <= ndigits n.
Proof.
  unfold ndigits, FormatInt, NilZero.string_of_int, NilZero.string_of_uint.
  destruct (Z.to_int n) as [d|d]; destruct d; simpl; lia.
Qed.

Lemma lead_pos_ge x e : Z.min e 0 <= lead_pos x e.
Proof.
  unfold lead_pos. destruct (Z.leb_spec 0 e).
  - pose proof (ndigits_pos (x * 2 ^ e)). lia.
  - pose proof (ndigits_pos (x * 5 ^ (- e))). lia.
Qed.

Lemma rounding_interval_lower m e :
  lower (rounding_interval m e) < value (rounding_interval m e).
Proof. unfold rounding_interval. simpl. case_match; lia. Qed.

(** At the position where the decimal expansion of the float ends, the
    digits kept are those of the float itself. *)
Lemma digits_at_exact m e :
  is_Some (digits_at (rounding_interval m e) (e - 2) (Z.min (e - 2) 0)).
Proof.
  pose proof (rounding_interval_lower m e) as Hl.
  unfold digits_at.
  set (i := rounding_interval m e) in *. set (e2 := e - 2).
  assert (Hdown : cmp_dec_bin (floor_dec (value i) e2 (Z.min e2 0))
                    (Z.min e2 0) (lower i) e2 = Gt).
  { unfold cmp_dec_bin, floor_dec. apply Z.compare_gt_iff.
    destruct (Z.le_gt_cases 0 e2) as [He|He].
    - replace (Z.min e2 0) with 0 by lia.
      replace (Z.max e2 0) with e2 by lia.
      replace (Z.max (- e2) 0) with 0 by lia.
      change (Z.max (- 0) 0) with 0. change (Z.max 0 0) with 0.
      change (10 ^ 0) with 1. change (2 ^ 0) with 1.
      rewrite Z.div_1_r, !Z.mul_1_r.
      apply Z.mul_lt_mono_pos_r; [apply Z.pow_pos_nonneg; lia | done].
    - replace (Z.min e2 0) with e2 by lia.
      replace (Z.max e2 0) with 0 by lia.
      replace (Z.max (- e2) 0) with (- e2) by lia.
      change (10 ^ 0) with 1. change (2 ^ 0) with 1.
      rewrite !Z.mul_1_r, Z.mul_1_l.
      replace (10 ^ (- e2)) with (5 ^ (- e2) * 2 ^ (- e2))
        by (rewrite <- Z.pow_mul_l; done).
      rewrite (Z.mul_assoc (value i)), Z.div_mul
        by (apply Z.pow_nonzero; lia).
      rewrite Z.mul_assoc.
      do 2 (apply Z.mul_lt_mono_pos_r; [apply Z.pow_pos_nonneg; lia|]).
      done. }
  rewrite Hdown. repeat case_match; done.
Qed.

(** The walk stops at a position where the digits kept identify the float,
    when it is given the fuel to reach such a position. *)
Lemma shortest_from_found i e2 q fuel :
  is_Some (digits_at i e2 (q - Z.of_nat fuel)) →
  digits_at i e2 (shortest_from i e2 q fuel).2
  = Some (shortest_from i e2 q fuel).1.
Proof.
  revert q. induction fuel as [|fuel IH]; intros q Hq; simpl.
  - rewrite Z.sub_0_r in Hq. destruct Hq as [c Hc]. by rewrite Hc.
  - destruct (digits_at i e2 q) as [c|] eqn:Hc; [done|].
    apply IH. by replace (q - 1 - Z.of_nat fuel) with (q - Z.of_nat (S fuel)) by lia.
Qed.

(** The digits of [shortest] lie in the rounding interval of the float: the
    fuel of the walk is enough, its fallback is never taken. *)
Theorem shortest_from_interval m e :
  let i := rounding_interval m e in
  let q0 := lead_pos (upper i) (e - 2) in
  let r := shortest_from i (e - 2) q0 (Z.to_nat (q0 - Z.min (e - 2) 0)) in
  digits_at i (e - 2) r.2 = Some r.1.
Proof.
  intros i q0 r. apply shortest_from_found.
  pose proof (lead_pos_ge (upper i) (e - 2)).
  replace (q0 - Z.of_nat (Z.to_nat (q0 - Z.min (e - 2) 0)))
    with (Z.min (e - 2) 0) by (unfold q0; lia).
  apply digits_at_exact.
Qed.
End GoFmtFacts.

(** ** Integers among the floats *)

Module Float64Facts.
Import Float64.

Lemma iter_pos_iter {A} (f : A → A) p x :
  SpecFloat.iter_pos f p x = Pos.iter f x p.
Proof.
  revert x. induction p as [p IH|p IH|]; intros x; simpl.
  - rewrite !IH. by rewrite <- !Pos.iter_swap.
  - by rewrite !IH.
  - done.
Qed.

Lemma digits2_pos_shift m k :
  digits2_pos (Pos.iter xO m k) = (digits2_pos m + k)%positive.
Proof.
  induction k as [|k IH] using Pos.peano_ind.
  - simpl. lia.
  - rewrite Pos.iter_succ. simpl. rewrite IH. lia.
Qed.

Lemma Zpos_shift m k : Zpos (Pos.iter xO m k) = Zpos m * 2 ^ Zpos k.
Proof.
  induction k as [|k IH] using Pos.peano_ind.
  - simpl. lia.
  - rewrite Pos.iter_succ, Pos2Z.inj_succ, Z.pow_succ_r by lia.
    rewrite Pos2Z.inj_xO, IH. lia.
Qed.

(** Shifting out [k] zero bits loses nothing. *)
Lemma shr_shift m k :
  SpecFloat.iter_pos shr_1 k
    {| shr_m := Zpos (Pos.iter xO m k); shr_r := false; shr_s := false |}
  = {| shr_m := Zpos m; shr_r := false; shr_s := false |}.
Proof.
  rewrite iter_pos_iter.
  induction k as [|k IH] using Pos.peano_ind.
  - done.
  - rewrite Pos.iter_succ_r, Pos.iter_succ. simpl. apply IH.
Qed.

(** Rounding a mantissa that is already canonical returns it. *)
Lemma binary_round_aux_bounded s m e :
  bounded prec emax m e = true →
  binary_round_aux prec emax s (Zpos m) e loc_Exact = S754_finite s m e.
Proof.
  intros [Hc He]%andb_true_iff. apply Z.eqb_eq in Hc.
  unfold binary_round_aux, shr_fexp. simpl. rewrite Hc, Z.sub_diag. simpl.
  rewrite Hc, Z.sub_diag. simpl. by rewrite He.
Qed.

Lemma binary_round_zero s m :
  bounded prec emax m 0 = true →
  binary_round prec emax s m 0 = S754_finite s m 0.
Proof.
  intros Hb. pose proof Hb as [Hc He]%andb_true_iff. apply Z.eqb_eq in Hc.
  unfold binary_round, canonical_mantissa in *. rewrite Hc.
  unfold shl_align. rewrite Z.sub_0_r.
  by apply binary_round_aux_bounded.
Qed.

Lemma binary_round_up s m k :
  bounded prec emax m (Zpos k) = true →
  binary_round prec emax s (Pos.iter xO m k) 0 = S754_finite s m (Zpos k).
Proof.
  intros Hb. pose proof Hb as [Hc He]%andb_true_iff. apply Z.eqb_eq in Hc.
  unfold binary_round, canonical_mantissa in *.
  rewrite digits2_pos_shift, Z.add_0_r, Pos2Z.inj_add, Hc.
  unfold shl_align. rewrite Z.sub_0_r.
  unfold binary_round_aux, shr_fexp, Zdigits2.
  rewrite digits2_pos_shift, Z.add_0_r, Pos2Z.inj_add, Hc, Z.sub_0_r.
  unfold shr_record_of_loc, shr. rewrite shr_shift.
  unfold loc_of_shr_record, round_nearest_even, shr_m.
  rewrite Z.add_0_l, Hc, Z.sub_diag. by rewrite He.
Qed.

Lemma binary_round_down s p k :
  bounded prec emax (Pos.iter xO p k) (Zneg k) = true →
  binary_round prec emax s p 0 = S754_finite s (Pos.iter xO p k) (Zneg k).
Proof.
  intros Hb. pose proof Hb as [Hc He]%andb_true_iff. apply Z.eqb_eq in Hc.
  unfold binary_round, canonical_mantissa in *.
  rewrite digits2_pos_shift in Hc.
  replace (Z.pos (digits2_pos p + k) + Z.neg k)
    with (Zpos (digits2_pos p)) in Hc by lia.
  rewrite Z.add_0_r, Hc. unfold shl_align. rewrite Z.sub_0_r.
  by apply binary_round_aux_bounded.
Qed.

Lemma binary_normalize_signed (s : bool) (p : positive) :
  binary_normalize prec emax (if s then Zneg p else Zpos p) 0 false
  = binary_round prec emax s p 0.
Proof. by destruct s. Qed.

Lemma eqb_finite_refl s m e : eqb (S754_finite s m e) (S754_finite s m e) = true.
Proof.
  unfold eqb, SFeqb, SFcompare.
  rewrite Z.compare_refl, Pos.compare_cont_refl. by destruct s.
Qed.

(** Converting the integer of a well-formed integral float back yields the
    float. *)
Lemma of_int64_trunc s m e :
  bounded prec emax m e = true →
  integral (S754_finite s m e) = true →
  of_int64 (trunc s m e) = S754_finite s m e.
Proof.
  intros Hb Hi. unfold of_int64, trunc.
  destruct e as [|k|k]; simpl in Hi.
  - rewrite Z.shiftl_0_r.
    replace (if s then - Zpos m else Zpos m)
      with (if s then Zneg m else Zpos m) by by destruct s.
    rewrite binary_normalize_signed. by apply binary_round_zero.
  - rewrite Z.shiftl_mul_pow2, <- Zpos_shift by lia.
    replace (if s then - Zpos (Pos.iter xO m k) else Zpos (Pos.iter xO m k))
      with (if s then Zneg (Pos.iter xO m k) else Zpos (Pos.iter xO m k))
      by by destruct s.
    rewrite binary_normalize_signed. by apply binary_round_up.
  - apply Z.eqb_eq in Hi. change (- Zneg k) with (Zpos k) in Hi.
    change (Z.shiftl (Zpos m) (Zneg k)) with (Z.shiftr (Zpos m) (Zpos k)).
    rewrite Z.shiftr_div_pow2 by lia.
    assert (Hm : Zpos m = Zpos m / 2 ^ Zpos k * 2 ^ Zpos k).
    { pose proof (Z.div_mod (Zpos m) (2 ^ Zpos k)) as Hdm.
      rewrite Hi in Hdm. rewrite Hdm at 1 by (apply Z.pow_nonzero; lia). lia. }
    assert (0 < 2 ^ Zpos k) by (apply Z.pow_pos_nonneg; lia).
    destruct (Zpos m / 2 ^ Zpos k) as [|p|p] eqn:Hq; [lia| |nia].
    rewrite <- Zpos_shift in Hm. injection Hm as ->.
    replace (if s then - Zpos p else Zpos p)
      with (if s then Zneg p else Zpos p) by by destruct s.
    rewrite binary_normalize_signed. by apply binary_round_down.
Qed.

(** A well-formed float that holds an integer within the range of
    [int64] passes the test [v == float64(int64(v))] of [flattenEntity],
    on every architecture, and [int64(v)] is that integer. *)
Theorem integral_float_test `{Arch} (f : float64) :
  valid_binary prec emax f = true →
  integral f = true → fits_int64 f = true →
  eqb f (of_int64 (to_int64 f)) = true ∧ to_int64 f = integer_of f.
Proof.
  intros Hv Hi Hf. destruct f as [s| | |s m e]; try done.
  unfold to_int64. simpl in Hf. rewrite Hf, of_int64_trunc by done.
  split; [apply eqb_finite_refl | done].
Qed.

Lemma shr_exponent mrs e n : e <= (shr mrs e n).2.
Proof. destruct n; simpl; lia. Qed.

(** Rounding never lowers the exponent it starts from. *)
Lemma binary_round_aux_exponent sx mx ex :
  match binary_round_aux prec emax sx mx ex loc_Exact with
  | S754_finite _ _ e => ex <= e
  | _ => True
  end.
Proof.
  unfold binary_round_aux, shr_fexp.
  pose proof (shr_exponent (shr_record_of_loc mx loc_Exact) ex
    (fexp prec emax (Zdigits2 mx + ex) - ex)) as H1.
  destruct (shr _ ex _) as [mrs' e'] eqn:E1. simpl in H1.
  pose proof (shr_exponent
    (shr_record_of_loc
       (round_nearest_even (shr_m mrs') (loc_of_shr_record mrs')) loc_Exact) e'
    (fexp prec emax
       (Zdigits2 (round_nearest_even (shr_m mrs') (loc_of_shr_record mrs')) + e')
     - e')) as H2.
  destruct (shr _ e' _) as [mrs'' e''] eqn:E2. simpl in H2.
  destruct (shr_m mrs''); try done.
  destruct (e'' <=? _); [lia|done].
Qed.

(** The conversion of an integer never yields a finite float with bits below
    the binary point. *)
Lemma binary_round_integral s p :
  match binary_round prec emax s p 0 with
  | S754_finite s m e => integral (S754_finite s m e) = true
  | _ => True
  end.
Proof.
  unfold binary_round, shl_align. rewrite Z.add_0_r, Z.sub_0_r.
  destruct (fexp prec emax (Zpos (digits2_pos p))) as [|j|j] eqn:Hf.
  - pose proof (binary_round_aux_exponent s (Zpos p) 0) as He.
    destruct (binary_round_aux _ _ _ _ _ _) as [| | |s' m e]; try done.
    simpl. apply orb_true_iff. left. by apply Z.leb_le.
  - pose proof (binary_round_aux_exponent s (Zpos p) 0) as He.
    destruct (binary_round_aux _ _ _ _ _ _) as [| | |s' m e]; try done.
    simpl. apply orb_true_iff. left. by apply Z.leb_le.
  - rewrite binary_round_aux_bounded.
    + simpl. rewrite Zpos_shift, Z.mod_mul; [done|].
      apply Z.pow_nonzero; lia.
    + unfold bounded, canonical_mantissa. rewrite digits2_pos_shift.
      replace (Z.pos (digits2_pos p + j) + Z.neg j)
        with (Zpos (digits2_pos p)) by lia.
      rewrite Hf, Z.eqb_refl. done.
Qed.

Lemma of_int64_integral z :
  match of_int64 z with
  | S754_finite s m e => integral (S754_finite s m e) = true
  | _ => True
  end.
Proof.
  unfold of_int64, binary_normalize.
  destruct z; [done|apply binary_round_integral..].
Qed.

(** Go's [==] holds between a finite float and another float only when
    they are the same datum. *)
Lemma eqb_finite_inv s m e g :
  eqb (S754_finite s m e) g = true → g = S754_finite s m e.
Proof.
  unfold eqb, SFeqb, SFcompare.
  destruct g as [s'|s'| |s' m' e']; try by destruct s, s'.
  - by destruct s.
  - rewrite Pos.compare_cont_spec. simpl.
    destruct s, s'; try done;
      destruct (Z.compare_spec e e') as [->| |]; try done;
      destruct (Pos.compare_spec m m') as [->| |]; done.
Qed.

(** A finite float with bits below the binary point fails the test
    [v == float64(int64(v))] of [flattenEntity], on every architecture. *)
Theorem fractional_float_test `{Arch} s m e :
  integral (S754_finite s m e) = false →
  eqb (S754_finite s m e) (of_int64 (to_int64 (S754_finite s m e))) = false.
Proof.
  intros Hi. apply not_true_is_false. intros Heq%eqb_finite_inv.
  pose proof (of_int64_integral (to_int64 (S754_finite s m e))) as Hz.
  rewrite Heq in Hz. congruence.
Qed.

(** The float [2^63] is out of the range of [int64]: the two architectures
    convert it differently. *)
Remark to_int64_unrepresentable :
  @to_int64 amd64 (of_int64 (2 ^ 63)) = int64_min
  ∧ @to_int64 arm64 (of_int64 (2 ^ 63)) = int64_max.
Proof. by vm_compute. Qed.

End Float64Facts.

(** ** The loop of [flattenEntity] *)

Module FlattenFacts.
Import GoStrings GoStringsFacts Float64 GoFmt TableEntity.

Section Loop.
Context `{Arch}.
Implicit Types (entity : Entity) (st : state) (k j : string)
  (v x dtype : value).

Lemma result_set k x st : result (set k x st) = <[k := x]> (result st).
Proof. done. Qed.

Lemma result_warn w st : result (warn w st) = result st.
Proof. done. Qed.

(** One pass adds its entries on top of what is already there. *)
Lemma flattenProperty_result entity st k v :
  result (flattenProperty entity st k v) = written entity k v ∪ result st.
Proof.
  unfold written, flattenProperty.
  repeat case_match;
    rewrite ?result_set, ?result_warn; simpl;
    rewrite <- ?insert_union_l, ?(left_id_L ∅ (∪)); done.
Qed.

(** A pass writes at [k] and [k@odata.type] only, and nothing for a
    metadata key. *)
Lemma written_Some entity k v j x :
  written entity k v !! j = Some x →
  metadata k = false ∧ (j = k ∨ j = k +:+ "@odata.type").
Proof.
  unfold written, flattenProperty, metadata.
  destruct (HasPrefix k "odata." || HasSuffix k "@odata.type");
    repeat case_match; rewrite ?result_set, ?result_warn; simpl;
    rewrite ?lookup_insert_Some, ?lookup_empty;
    intuition (subst; auto; discriminate).
Qed.

(** Two passes over different keys write different entries. *)
Lemma written_disjoint entity k v k' v' j x y :
  written entity k v !! j = Some x →
  written entity k' v' !! j = Some y →
  k = k'.
Proof.
  intros [Hk [-> | ->]]%written_Some [Hk' [Hj | Hj]]%written_Some;
    unfold metadata in *;
    apply orb_false_iff in Hk as [_ Hk]; apply orb_false_iff in Hk' as [_ Hk'].
  - done.
  - by apply HasSuffix_false_app in Hj.
  - symmetry in Hj. by apply HasSuffix_false_app in Hj.
  - by apply app_inj_r in Hj.
Qed.

Lemma key_ne_companion k : k ≠ k +:+ "@odata.type".
Proof.
  intros Hk. apply (f_equal String.length) in Hk.
  rewrite length_app in Hk. simpl in Hk. lia.
Qed.

(** What the pass over a property with a recognized annotation writes:
    the annotation again, and the value rendered by [%f] for
    [Edm.Double], kept for [Edm.String], rendered by [%v] otherwise. *)
Lemma written_annotated entity k v dtype :
  metadata k = false →
  entity !! (k +:+ "@odata.type") = Some dtype →
  recognized dtype = true →
  written entity k v !! k
  = Some (if is_string dtype "Edm.Double" then VString (Sprintf_f v)
          else if is_string dtype "Edm.String" then v
          else VString (Sprint v))
  ∧ written entity k v !! (k +:+ "@odata.type") = Some dtype.
Proof.
  intros Hm Ha Hrec. unfold written, flattenProperty.
  unfold metadata in Hm. rewrite Hm, Ha.
  destruct dtype as [| |t|? ?]; try discriminate Hrec.
  unfold recognized in Hrec. simpl in *.
  destruct (String.eqb_spec t "Edm.Boolean") as [->|_];
    [|destruct (String.eqb_spec t "Edm.Double") as [->|_];
      [|destruct (String.eqb_spec t "Edm.Int32") as [->|_];
        [|destruct (String.eqb_spec t "Edm.Int64") as [->|_];
          [|destruct (String.eqb_spec t "Edm.String") as [->|_];
            [|discriminate Hrec]]]]];
    simpl; rewrite ?String.eqb_refl;
    rewrite lookup_insert_eq,
      lookup_insert_ne by (symmetry; apply key_ne_companion);
    by rewrite lookup_insert_eq.
Qed.

(** What the pass over a property without annotation writes. *)
Lemma written_unannotated entity k v :
  metadata k = false →
  entity !! (k +:+ "@odata.type") = None →
  written entity k v !! k
  = match v with
    | VBool _ => Some (VString (Sprint v))
    | VFloat f =>
        Some (VString (if eqb f (of_int64 (to_int64 f))
                       then FormatInt (to_int64 f) else Sprint v))
    | VString _ => Some v
    | VOther _ _ => None
    end
  ∧ written entity k v !! (k +:+ "@odata.type")
    = match v with
      | VBool _ => Some (VString "Edm.Boolean")
      | VFloat f =>
          Some (VString (if eqb f (of_int64 (to_int64 f))
                         then "Edm.Int32" else "Edm.Double"))
      | _ => None
      end.
Proof.
  intros Hm Ha. unfold written, flattenProperty.
  unfold metadata in Hm. rewrite Hm, Ha.
  destruct v as [b|f|s|? ?]; [|destruct (eqb f _)|..]; simpl;
    rewrite ?lookup_insert_eq,
      ?(lookup_insert_ne _ (k +:+ "@odata.type") k)
        by (symmetry; apply key_ne_companion);
    rewrite ?lookup_insert_eq,
      ?(lookup_insert_ne _ k (k +:+ "@odata.type"))
        by apply key_ne_companion;
    rewrite ?lookup_empty; done.
Qed.

(** The pass over a property with an unrecognized annotation writes
    nothing. *)
Lemma written_unrecognized entity k v dtype :
  entity !! (k +:+ "@odata.type") = Some dtype →
  recognized dtype = false →
  written entity k v = ∅.
Proof.
  intros Ha Hrec. unfold written, flattenProperty. rewrite Ha.
  unfold recognized in Hrec.
  repeat (apply orb_false_iff in Hrec as [Hrec ?]).
  destruct (_ || _); [done|].
  repeat match goal with
         | Hf : is_string _ _ = false |- _ => rewrite Hf; clear Hf
         end.
  done.
Qed.

(** A pass that writes the annotation also writes the property, and
    the annotation written is one of the recognized type names. *)
Lemma written_companion_Some entity k v x :
  written entity k v !! (k +:+ "@odata.type") = Some x →
  is_Some (written entity k v !! k) ∧ recognized x = true.
Proof.
  intros Hw. destruct (written_Some _ _ _ _ _ Hw) as [Hm _].
  destruct (entity !! (k +:+ "@odata.type")) as [dtype|] eqn:Ha.
  - destruct (recognized dtype) eqn:Hrec.
    + destruct (written_annotated entity k v dtype) as [Hk Hc]; [done..|].
      rewrite Hk. rewrite Hc in Hw. by simplify_eq.
    + by rewrite (written_unrecognized _ _ _ dtype) in Hw.
  - destruct (written_unannotated entity k v) as [Hk Hc]; [done..|].
    rewrite Hk. rewrite Hc in Hw.
    destruct v as [b|f|s|? ?]; [|destruct (eqb f _)|..]; by simplify_eq.
Qed.

(** After the passes over [l], an entry of [result] comes from the one
    pass that writes it, or was there before and no pass writes it. *)
Lemma flattenRange_fold entity (l : list (string * value)) st j x :
  NoDup l.*1 →
  result (fold_left (λ st kv, flattenProperty entity st kv.1 kv.2) l st)
    !! j = Some x ↔
  (∃ k v, (k, v) ∈ l ∧ written entity k v !! j = Some x)
  ∨ ((∀ k v, (k, v) ∈ l → written entity k v !! j = None)
     ∧ result st !! j = Some x).
Proof.
  revert st. induction l as [|[k v] l IH]; intros st Hnd; simpl.
  - split; [intros ?; right; split; [intros ?? []%elem_of_nil | done]|].
    intros [(? & ? & []%elem_of_nil & _) | [_ ?]]; done.
  - apply NoDup_cons in Hnd as [Hk Hnd].
    rewrite (IH _ Hnd), flattenProperty_result, lookup_union_Some_raw.
    split.
    + intros [(k' & v' & Hin & Hw) | [Hall [Hw | [Hw Hst]]]].
      * left. exists k', v'. split; [by apply elem_of_cons; right | done].
      * left. exists k, v. split; [by apply elem_of_cons; left | done].
      * right. split; [|done].
        intros k' v' [[= -> ->] | Hin]%elem_of_cons; [done | by eapply Hall].
    + intros [(k' & v' & [[= -> ->] | Hin]%elem_of_cons & Hw) | [Hall Hst]].
      * right. split; [|by left].
        intros k' v' Hin.
        destruct (written entity k' v' !! j) as [y|] eqn:Hy; [|done].
        exfalso. apply Hk.
        rewrite (written_disjoint _ _ _ _ _ _ _ _ Hw Hy).
        apply list_elem_of_fmap. by exists (k', v').
      * left. by exists k', v'.
      * right. split.
        -- intros k' v' Hin. apply Hall. by apply elem_of_cons; right.
        -- right. split; [|done]. apply Hall. by apply elem_of_cons; left.
Qed.

Lemma flattenRange_Some entity (l : list (string * value)) j x :
  NoDup l.*1 →
  result (flattenRange entity l) !! j = Some x ↔
  ∃ k v, (k, v) ∈ l ∧ written entity k v !! j = Some x.
Proof.
  intros Hnd. unfold flattenRange. rewrite flattenRange_fold by done.
  simpl. rewrite lookup_empty.
  split; [intros [? | [_ ?]]; done | by left].
Qed.

(** The map returned holds exactly what the passes over the pairs of the
    entity (the reserved keys deleted) write. *)
Lemma returned_Some entity j x :
  returned (flattenEntity entity) !! j = Some x ↔
  ∃ k v, deleteReserved entity !! k = Some v
         ∧ written (deleteReserved entity) k v !! j = Some x.
Proof.
  unfold flattenEntity, flattenEntityIn. simpl.
  rewrite flattenRange_Some by apply NoDup_fst_map_to_list.
  by setoid_rewrite elem_of_map_to_list.
Qed.

(** The order in which [range] visits the pairs does not show in the
    map built. *)
Lemma flattenRange_order entity (l l' : list (string * value)) :
  NoDup l.*1 → l ≡ₚ l' →
  result (flattenRange entity l) = result (flattenRange entity l').
Proof.
  intros Hnd Hp. apply map_eq. intros j. apply option_eq. intros x.
  rewrite !flattenRange_Some; [|by rewrite <- Hp|done].
  by setoid_rewrite Hp.
Qed.

Theorem flattenEntityIn_order (order : Entity → list (string * value)) entity :
  (∀ e, order e ≡ₚ map_to_list e) →
  returned (flattenEntityIn order entity) = returned (flattenEntity entity)
  ∧ entity_after (flattenEntityIn order entity)
    = entity_after (flattenEntity entity).
Proof.
  intros Hp. split; [|done]. unfold flattenEntity, flattenEntityIn. simpl.
  symmetry. apply flattenRange_order; [apply NoDup_fst_map_to_list | done].
Qed.

(** One pass appends its lines to the log. *)
Lemma flattenProperty_logged entity st k v :
  logged (flattenProperty entity st k v) = logged st ++ warned entity k v.
Proof.
  unfold warned, flattenProperty.
  repeat case_match; simpl; by rewrite ?app_nil_r.
Qed.

Lemma flattenRange_logged_fold entity (l : list (string * value)) st :
  logged (fold_left (λ st kv, flattenProperty entity st kv.1 kv.2) l st)
  = logged st ++ flat_map (λ kv, warned entity kv.1 kv.2) l.
Proof.
  revert st. induction l as [|[k v] l IH]; intros st; simpl.
  - by rewrite app_nil_r.
  - by rewrite IH, flattenProperty_logged, <- app_assoc.
Qed.

(** The lines logged are those of the passes over the pairs of the entity
    (the reserved keys deleted). *)
Lemma warnings_elem_of entity w :
  w ∈ warnings (flattenEntity entity) ↔
  ∃ k v, deleteReserved entity !! k = Some v
         ∧ w ∈ warned (deleteReserved entity) k v.
Proof.
  unfold flattenEntity, flattenEntityIn, flattenRange. simpl.
  rewrite flattenRange_logged_fold. simpl.
  rewrite list_elem_of_In, in_flat_map. split.
  - intros ([k v] & Hin%list_elem_of_In%elem_of_map_to_list & Hw%list_elem_of_In).
    by exists k, v.
  - intros (k & v & Hin & Hw). exists (k, v).
    split; apply list_elem_of_In; [by apply elem_of_map_to_list | done].
Qed.

(** Another order of visit permutes the lines logged. *)
Lemma flattenEntityIn_warnings (order : Entity → list (string * value)) entity :
  (∀ e, order e ≡ₚ map_to_list e) →
  warnings (flattenEntityIn order entity) ≡ₚ warnings (flattenEntity entity).
Proof.
  intros Hp. unfold flattenEntity, flattenEntityIn, flattenRange. simpl.
  rewrite !flattenRange_logged_fold. simpl.
  apply Permutation_flat_map, Hp.
Qed.

Lemma reserved_app k : reserved (k +:+ "@odata.type") = false.
Proof.
  unfold reserved.
  destruct (String.eqb_spec (k +:+ "@odata.type") "PartitionKey") as [He|_];
    [by apply (f_equal (λ s, HasSuffix s "@odata.type")) in He;
        rewrite HasSuffix_app in He|].
  destruct (String.eqb_spec (k +:+ "@odata.type") "RowKey") as [He|_];
    [by apply (f_equal (λ s, HasSuffix s "@odata.type")) in He;
        rewrite HasSuffix_app in He|].
  destruct (String.eqb_spec (k +:+ "@odata.type") "Timestamp") as [He|_];
    [by apply (f_equal (λ s, HasSuffix s "@odata.type")) in He;
        rewrite HasSuffix_app in He|].
  done.
Qed.

Lemma deleteReserved_lookup entity k :
  deleteReserved entity !! k = if reserved k then None else entity !! k.
Proof.
  unfold deleteReserved, reserved. rewrite !lookup_delete.
  destruct (String.eqb_spec k "PartitionKey") as [->|?]; [done|].
  destruct (String.eqb_spec k "RowKey") as [->|?]; [done|].
  destruct (String.eqb_spec k "Timestamp") as [->|?]; [done|].
  repeat case_decide; done.
Qed.

Lemma deleteReserved_companion entity k :
  deleteReserved entity !! (k +:+ "@odata.type")
  = entity !! (k +:+ "@odata.type").
Proof. by rewrite deleteReserved_lookup, reserved_app. Qed.

(** A processed key of the entity: neither reserved nor metadata. *)
Lemma deleteReserved_property entity k :
  reserved k = false → deleteReserved entity !! k = entity !! k.
Proof. intros Hk. by rewrite deleteReserved_lookup, Hk. Qed.

Lemma property_of_deleted entity k v :
  deleteReserved entity !! k = Some v → metadata k = false →
  property_of entity k.
Proof.
  rewrite deleteReserved_lookup. intros Hk Hm.
  destruct (reserved k) eqn:Hr; [done|]. by split; [exists v|].
Qed.

(** What the returned map holds at a key that is not an annotation
    key. *)
Lemma returned_key entity k :
  HasSuffix k "@odata.type" = false →
  returned (flattenEntity entity) !! k =
  match deleteReserved entity !! k with
  | Some v => written (deleteReserved entity) k v !! k
  | None => None
  end.
Proof.
  intros Hk. apply option_eq. intros x. rewrite returned_Some. split.
  - intros (k' & v' & Hin & Hw).
    destruct (written_Some _ _ _ _ _ Hw) as [_ [-> | ->]].
    + by rewrite Hin.
    + by rewrite HasSuffix_app in Hk.
  - destruct (deleteReserved entity !! k) as [v|] eqn:Hv; [|done].
    intros Hw. by exists k, v.
Qed.

(** What the returned map holds at an annotation key. *)
Lemma returned_companion entity k :
  returned (flattenEntity entity) !! (k +:+ "@odata.type") =
  match deleteReserved entity !! k with
  | Some v => written (deleteReserved entity) k v !! (k +:+ "@odata.type")
  | None => None
  end.
Proof.
  apply option_eq. intros x. rewrite returned_Some. split.
  - intros (k' & v' & Hin & Hw).
    destruct (written_Some _ _ _ _ _ Hw) as [Hm [Hj | Hj]].
    + apply orb_false_iff in Hm as [_ Hm].
      by rewrite <- Hj, HasSuffix_app in Hm.
    + apply app_inj_r in Hj as ->. by rewrite Hin.
  - destruct (deleteReserved entity !! k) as [v|] eqn:Hv; [|done].
    intros Hw. by exists k, v.
Qed.

(** What the map returned holds for a property without annotation. *)
Lemma returned_unannotated entity k v :
  entity !! k = Some v →
  entity !! (k +:+ "@odata.type") = None →
  reserved k = false → metadata k = false →
  returned (flattenEntity entity) !! k
    = written (deleteReserved entity) k v !! k
  ∧ returned (flattenEntity entity) !! (k +:+ "@odata.type")
    = written (deleteReserved entity) k v !! (k +:+ "@odata.type")
  ∧ deleteReserved entity !! (k +:+ "@odata.type") = None.
Proof.
  intros Hk Ha Hr Hm. pose proof Hm as [_ Hs]%orb_false_iff.
  rewrite returned_key, returned_companion, deleteReserved_property, Hk by done.
  by rewrite deleteReserved_companion.
Qed.

(** A translatable property is in the map returned, with the entry its
    pass writes. *)
Lemma translatable_returned entity k v :
  entity !! k = Some v → translatable entity k v = true →
  returned (flattenEntity entity) !! k
    = written (deleteReserved entity) k v !! k
  ∧ is_Some (returned (flattenEntity entity) !! k).
Proof.
  intros Hk [[Hr%negb_true_iff Hm%negb_true_iff]%andb_true_iff Ht]%andb_true_iff.
  pose proof Hm as [_ Hs]%orb_false_iff.
  rewrite returned_key, deleteReserved_property, Hk by done.
  split; [done|].
  destruct (entity !! (k +:+ "@odata.type")) as [dtype|] eqn:Ha.
  - edestruct (written_annotated (deleteReserved entity) k v)
      as [-> _]; [done|by rewrite deleteReserved_companion|done..].
  - edestruct (written_unannotated (deleteReserved entity) k v)
      as [-> _]; [done|by rewrite deleteReserved_companion|].
    by destruct v.
Qed.

End Loop.
End FlattenFacts.

(** ** Properties of [flattenEntity] *)

Module FlattenEntitySpec.
Import GoStrings GoStringsFacts Float64 Float64Facts GoFmt TableEntity FlattenFacts
  Scenarios.

Section Spec.
Context `{Arch}.
Implicit Types (entity : Entity) (k j : string) (v x dtype : value).

(** C1: the end-to-end scenario. *)
Theorem C1_scenario : returned (flattenEntity scenario) = scenario_flat.
Proof. vm_compute. reflexivity. Qed.

(** A float annotated [Edm.Double] is rendered by [%f], with six
    fractional digits. *)
Lemma annotated_double_fixed6 entity k f :
  entity !! k = Some (VFloat f) →
  entity !! (k +:+ "@odata.type") = Some (VString "Edm.Double") →
  reserved k = false → metadata k = false →
  returned (flattenEntity entity) !! k = Some (VString (FormatFloat_f6 f)).
Proof.
  intros Hk Ha Hr Hm. pose proof Hm as [_ Hs]%orb_false_iff.
  rewrite returned_key, deleteReserved_property, Hk by done.
  edestruct (written_annotated (deleteReserved entity) k (VFloat f))
    as [-> _]; [done|by rewrite deleteReserved_companion|done..].
Qed.

(** C2, at the double of the source's own comment: with the annotation
    [Edm.Double] the property is rendered by [%f] as [123.123000], while
    the natural form, the one the unannotated path emits, is
    [123.123]. *)
Theorem C2_annotated_double_is_fixed6 :
  returned (flattenEntity annotated_double) !! "x"
    = Some (VString "123.123000")
  ∧ returned (flattenEntity plain_double) !! "x" = Some (VString "123.123")
  ∧ Sprint (VFloat (of_ratio 123123 1000)) = "123.123".
Proof. vm_compute. done. Qed.

(** C3 as amended: the call removes the three reserved keys from the
    caller's map and leaves every other key with its value. *)
Theorem C3_entity_after entity k :
  entity_after (flattenEntity entity) !! k
  = if reserved k then None else entity !! k.
Proof. apply deleteReserved_lookup. Qed.

(** C4, at a property decoded once: the first decode of [ratio = 3.5]
    yields the string [3.5] with the companion [Edm.Double]; decoding
    that output again replaces the string by [%!f(string=3.5)]. *)
Theorem C4_redecode_double :
  returned (flattenEntity fractional)
    = list_to_map [("ratio", VString "3.5");
                   ("ratio@odata.type", VString "Edm.Double")]
  ∧ returned (flattenEntity (returned (flattenEntity fractional))) !! "ratio"
    = Some (VString "%!f(string=3.5)").
Proof. vm_compute. done. Qed.

(** Under every other recognized annotation a string is left as it
    is. *)
Lemma redecode_unchanged entity k s dtype :
  entity !! k = Some (VString s) →
  entity !! (k +:+ "@odata.type") = Some dtype →
  recognized dtype = true → is_string dtype "Edm.Double" = false →
  reserved k = false → metadata k = false →
  returned (flattenEntity entity) !! k = Some (VString s)
  ∧ returned (flattenEntity entity) !! (k +:+ "@odata.type") = Some dtype.
Proof.
  intros Hk Ha Hrec Hd Hr Hm. pose proof Hm as [_ Hs]%orb_false_iff.
  rewrite returned_key, returned_companion, deleteReserved_property, Hk by done.
  edestruct (written_annotated (deleteReserved entity) k (VString s))
    as [-> ->]; [done|by rewrite deleteReserved_companion|done|].
  rewrite Hd. by destruct (is_string dtype "Edm.String").
Qed.

(** A string without annotation is passed through. *)
Lemma redecode_plain_string entity k s :
  entity !! k = Some (VString s) →
  entity !! (k +:+ "@odata.type") = None →
  reserved k = false → metadata k = false →
  returned (flattenEntity entity) !! k = Some (VString s).
Proof.
  intros Hk Ha Hr Hm. pose proof Hm as [_ Hs]%orb_false_iff.
  rewrite returned_key, deleteReserved_property, Hk by done.
  unfold written, flattenProperty. unfold metadata in Hm.
  rewrite Hm, deleteReserved_companion, Ha. apply lookup_insert_eq.
Qed.

(** Decoding the map returned by a decode leaves every string of it as it
    is, save under the companion [Edm.Double]. *)
Lemma redecode_idempotent entity k s :
  returned (flattenEntity entity) !! k = Some (VString s) →
  HasSuffix k "@odata.type" = false →
  returned (flattenEntity entity) !! (k +:+ "@odata.type")
    ≠ Some (VString "Edm.Double") →
  returned (flattenEntity (returned (flattenEntity entity))) !! k
    = Some (VString s).
Proof.
  intros Hk Hs Hd.
  pose proof Hk as (k' & v' & Hin & Hw)%returned_Some.
  destruct (written_Some _ _ _ _ _ Hw) as [Hm [<- | ->]];
    [|by rewrite HasSuffix_app in Hs].
  destruct (property_of_deleted _ _ _ Hin Hm) as (_ & Hr & _).
  destruct (returned (flattenEntity entity) !! (k +:+ "@odata.type"))
    as [dtype|] eqn:Ha.
  - pose proof Ha as Hc. rewrite returned_companion, Hin in Hc.
    destruct (written_companion_Some _ _ _ _ Hc) as [_ Hrec].
    eapply redecode_unchanged; [done..| |done|done].
    destruct dtype as [| |t|? ?]; try done. simpl.
    apply String.eqb_neq. congruence.
  - by apply redecode_plain_string.
Qed.

(** C5: a property [k] whose annotation names a type outside the
    switch is left out together with its annotation, and the decode
    goes on: every other translatable property of the input is in the
    map returned, with the entry its own pass writes.  [flattenEntity]
    is a total function, it has no failing result.  [k] ranges over
    property names, the keys that are not annotation keys
    themselves. *)
Theorem C5_unrecognized_type_skipped entity k dtype :
  entity !! (k +:+ "@odata.type") = Some dtype →
  recognized dtype = false →
  HasSuffix k "@odata.type" = false →
  returned (flattenEntity entity) !! k = None
  ∧ returned (flattenEntity entity) !! (k +:+ "@odata.type") = None
  ∧ ∀ k' v', k' ≠ k → entity !! k' = Some v' →
      translatable entity k' v' = true →
      returned (flattenEntity entity) !! k'
        = written (deleteReserved entity) k' v' !! k'
      ∧ is_Some (returned (flattenEntity entity) !! k').
Proof.
  intros Ha Hrec Hs.
  rewrite returned_key, returned_companion by done.
  split_and!.
  - destruct (deleteReserved entity !! k) as [v|]; [|done].
    rewrite (written_unrecognized _ _ _ dtype); [done| |done].
    by rewrite deleteReserved_companion.
  - destruct (deleteReserved entity !! k) as [v|]; [|done].
    rewrite (written_unrecognized _ _ _ dtype); [done| |done].
    by rewrite deleteReserved_companion.
  - intros k' v' _ Hk' Ht. by apply translatable_returned.
Qed.

(** The pass over a property with an unrecognized annotation logs it. *)
Lemma unrecognized_type_logged entity k v dtype :
  entity !! k = Some v →
  entity !! (k +:+ "@odata.type") = Some dtype →
  recognized dtype = false →
  reserved k = false → metadata k = false →
  UnexpectedOdataType k dtype ∈ warnings (flattenEntity entity).
Proof.
  intros Hk Ha Hrec Hr Hm. apply warnings_elem_of. exists k, v.
  split; [by rewrite deleteReserved_property|].
  unfold warned, flattenProperty. unfold metadata in Hm.
  rewrite Hm, deleteReserved_companion, Ha.
  unfold recognized in Hrec.
  repeat (apply orb_false_iff in Hrec as [Hrec ?]).
  repeat match goal with
         | Hf : is_string _ _ = false |- _ => rewrite Hf; clear Hf
         end.
  simpl. by apply list_elem_of_singleton.
Qed.

(** C6: the reserved keys are never keys of the map returned. *)
Theorem C6_reserved_absent entity :
  returned (flattenEntity entity) !! "PartitionKey" = None
  ∧ returned (flattenEntity entity) !! "RowKey" = None
  ∧ returned (flattenEntity entity) !! "Timestamp" = None.
Proof.
  split_and!; by rewrite returned_key, deleteReserved_lookup.
Qed.

(** C7: a float without annotation that equals the conversion back of
    its truncation to [int64] is emitted as the decimal text of that
    integer, with the companion [Edm.Int32]. *)
Theorem C7_integral_float entity k f :
  entity !! k = Some (VFloat f) →
  entity !! (k +:+ "@odata.type") = None →
  reserved k = false → metadata k = false →
  eqb f (of_int64 (to_int64 f)) = true →
  returned (flattenEntity entity) !! k
    = Some (VString (FormatInt (to_int64 f)))
  ∧ returned (flattenEntity entity) !! (k +:+ "@odata.type")
    = Some (VString "Edm.Int32").
Proof.
  intros Hk Ha Hr Hm Hf.
  destruct (returned_unannotated entity k (VFloat f)) as (-> & -> & Hd);
    [done..|].
  destruct (written_unannotated (deleteReserved entity) k (VFloat f))
    as [-> ->]; [done..|].
  by rewrite Hf.
Qed.

(** Every well-formed float that holds an integer within the range of
    [int64] is such a float: it is emitted as the decimal text of the
    integer it holds. *)
Corollary whole_float_emitted entity k f :
  entity !! k = Some (VFloat f) →
  entity !! (k +:+ "@odata.type") = None →
  reserved k = false → metadata k = false →
  valid_binary prec emax f = true →
  integral f = true → fits_int64 f = true →
  returned (flattenEntity entity) !! k
    = Some (VString (FormatInt (integer_of f)))
  ∧ returned (flattenEntity entity) !! (k +:+ "@odata.type")
    = Some (VString "Edm.Int32").
Proof.
  intros Hk Ha Hr Hm Hv Hi Hfit.
  destruct (integral_float_test f Hv Hi Hfit) as [Hf <-].
  destruct (returned_unannotated entity k (VFloat f)) as (-> & -> & Hd);
    [done..|].
  destruct (written_unannotated (deleteReserved entity) k (VFloat f))
    as [-> ->]; [done..|].
  by rewrite Hf.
Qed.

(** C8: a float without annotation that differs from the conversion
    back of its truncation is emitted in its natural form, the text of
    [fmt.Sprint], with the companion [Edm.Double]. *)
Theorem C8_fractional_float entity k f :
  entity !! k = Some (VFloat f) →
  entity !! (k +:+ "@odata.type") = None →
  reserved k = false → metadata k = false →
  eqb f (of_int64 (to_int64 f)) = false →
  returned (flattenEntity entity) !! k
    = Some (VString (Sprint (VFloat f)))
  ∧ returned (flattenEntity entity) !! (k +:+ "@odata.type")
    = Some (VString "Edm.Double").
Proof.
  intros Hk Ha Hr Hm Hf.
  destruct (returned_unannotated entity k (VFloat f)) as (-> & -> & Hd);
    [done..|].
  destruct (written_unannotated (deleteReserved entity) k (VFloat f))
    as [-> ->]; [done..|].
  by rewrite Hf.
Qed.

(** Every finite float with bits below the binary point is such a float. *)
Corollary fractional_float_emitted entity k s m e :
  entity !! k = Some (VFloat (S754_finite s m e)) →
  entity !! (k +:+ "@odata.type") = None →
  reserved k = false → metadata k = false →
  integral (S754_finite s m e) = false →
  returned (flattenEntity entity) !! k
    = Some (VString (Sprint (VFloat (S754_finite s m e))))
  ∧ returned (flattenEntity entity) !! (k +:+ "@odata.type")
    = Some (VString "Edm.Double").
Proof.
  intros Hk Ha Hr Hm Hi.
  pose proof (fractional_float_test s m e Hi) as Hf.
  destruct (returned_unannotated entity k (VFloat (S754_finite s m e)))
    as (-> & -> & Hd); [done..|].
  destruct (written_unannotated (deleteReserved entity) k
              (VFloat (S754_finite s m e))) as [-> ->]; [done..|].
  by rewrite Hf.
Qed.

(** C9: a key of the map returned never starts with [odata.]; one that
    ends with [@odata.type] is there as the companion written by the pass
    over a property of the input, a property that is itself in the map
    returned, and it holds a recognized type name: the loop copies no
    annotation key as an entry of its own.  Every key of the map returned
    is a property of the input (non-reserved, non-metadata) or the
    companion of one. *)
Theorem C9_output_keys entity j x :
  returned (flattenEntity entity) !! j = Some x →
  HasPrefix j "odata." = false
  ∧ (HasSuffix j "@odata.type" = true →
     ∃ k, j = k +:+ "@odata.type" ∧ property_of entity k
          ∧ is_Some (returned (flattenEntity entity) !! k)
          ∧ recognized x = true)
  ∧ (property_of entity j
     ∨ ∃ k, j = k +:+ "@odata.type" ∧ property_of entity k).
Proof.
  intros (k & v & Hk & Hw)%returned_Some.
  destruct (written_Some _ _ _ _ _ Hw) as [Hm Hj].
  pose proof (property_of_deleted _ _ _ Hk Hm) as Hp.
  pose proof Hm as [Hpre Hs]%orb_false_iff.
  destruct Hj as [-> | ->].
  - split_and!; [done| |by left]. by rewrite Hs.
  - split_and!; [by apply HasPrefix_odata_app| |right; by exists k].
    intros _. exists k.
    destruct (written_companion_Some _ _ _ _ Hw) as [Hin Hrec].
    split_and!; [done..| |done].
    by rewrite returned_key, Hk.
Qed.

(** C10: an annotation whose property [k] is not in the input yields
    neither [k] nor [k@odata.type] in the map returned.  [k] ranges
    over property names, the keys that are not annotation keys
    themselves. *)
Theorem C10_orphan_annotation entity k :
  is_Some (entity !! (k +:+ "@odata.type")) →
  entity !! k = None →
  HasSuffix k "@odata.type" = false →
  returned (flattenEntity entity) !! k = None
  ∧ returned (flattenEntity entity) !! (k +:+ "@odata.type") = None.
Proof.
  intros _ Hk Hs.
  rewrite returned_key, returned_companion, deleteReserved_lookup, Hk by done.
  by destruct (reserved k).
Qed.

End Spec.

(** *** The statements at concrete entities *)

(** C3 as stated fails: the caller's map of the scenario has lost its
    reserved keys. *)
Lemma C3_input_mutated : entity_after (flattenEntity scenario) ≠ scenario.
Proof.
  intros Heq. apply (f_equal (λ m : Entity, m !! "PartitionKey")) in Heq.
  vm_compute in Heq. discriminate Heq.
Qed.

(** C5 at the entity [unsupported], for the property [status]. *)
Lemma C5_witness :
  returned (flattenEntity unsupported) !! "status" = None
  ∧ returned (flattenEntity unsupported) !! ("status" +:+ "@odata.type") = None
  ∧ ∀ k' v', k' ≠ "status" → unsupported !! k' = Some v' →
      translatable unsupported k' v' = true →
      returned (flattenEntity unsupported) !! k'
        = written (deleteReserved unsupported) k' v' !! k'
      ∧ is_Some (returned (flattenEntity unsupported) !! k').
Proof.
  apply (C5_unrecognized_type_skipped unsupported "status"
           (VString "Edm.Unsupported")); vm_compute; reflexivity.
Defined.

(** C7 at the entity [whole_number]: [42.0] is emitted as [42]. *)
Lemma C7_witness :
  returned (flattenEntity whole_number) !! "n" = Some (VString "42")
  ∧ returned (flattenEntity whole_number) !! ("n" +:+ "@odata.type")
    = Some (VString "Edm.Int32").
Proof.
  apply (C7_integral_float whole_number "n" (of_int64 42));
    vm_compute; reflexivity.
Defined.

(** C8 at the entity [fractional]: [3.5] is emitted as [3.5]. *)
Lemma C8_witness :
  returned (flattenEntity fractional) !! "ratio" = Some (VString "3.5")
  ∧ returned (flattenEntity fractional) !! ("ratio" +:+ "@odata.type")
    = Some (VString "Edm.Double").
Proof.
  apply (C8_fractional_float fractional "ratio" (of_ratio 7 2));
    vm_compute; reflexivity.
Defined.

(** C9 at the key [foo@odata.type] of the flattened [with_metadata]. *)
Lemma C9_witness :
  HasPrefix "foo@odata.type" "odata." = false
  ∧ (HasSuffix "foo@odata.type" "@odata.type" = true →
     ∃ k, "foo@odata.type" = k +:+ "@odata.type"
          ∧ property_of with_metadata k
          ∧ is_Some (returned (flattenEntity with_metadata) !! k)
          ∧ recognized (VString "Edm.String") = true)
  ∧ (property_of with_metadata "foo@odata.type"
     ∨ ∃ k, "foo@odata.type" = k +:+ "@odata.type"
            ∧ property_of with_metadata k).
Proof.
  apply (C9_output_keys with_metadata "foo@odata.type" (VString "Edm.String")).
  vm_compute. reflexivity.
Defined.

(** C10 at the entity [orphan], for the absent property [ghost]. *)
Lemma C10_witness :
  returned (flattenEntity orphan) !! "ghost" = None
  ∧ returned (flattenEntity orphan) !! ("ghost" +:+ "@odata.type") = None.
Proof.
  apply (C10_orphan_annotation orphan "ghost");
    [by exists (VString "Edm.Int32") | vm_compute; reflexivity..].
Defined.

(** A null property is left out and logged. *)
Remark null_property_skipped :
  returned (flattenEntity with_null) = {[ "name" := VString "x" ]}
  ∧ warnings (flattenEntity with_null) = [UnexpectedType "gone" VNil].
Proof. by vm_compute. Qed.

(** The side condition on [k] in C5 and C10 excludes keys such as
    [a@odata.type]: it is absent from [nested_annotation], which holds an
    annotation for it, and yet it is in the map returned, as the companion
    of [a]. *)
Remark nested_annotation_companion :
  is_Some (nested_annotation !! ("a@odata.type" +:+ "@odata.type"))
  ∧ nested_annotation !! "a@odata.type" = None
  ∧ returned (flattenEntity nested_annotation) !! "a@odata.type"
    = Some (VString "Edm.Boolean").
Proof. split_and!; [by eexists | vm_compute; reflexivity..]. Qed.
End FlattenEntitySpec.

(** ** Further properties of [flattenEntity] *)

Module FlattenEntityMore.
Import GoStrings GoStringsFacts Float64 Float64Facts GoFmt TableEntity FlattenFacts
  Scenarios TableEntityMore FlattenEntitySpec.

Section More.
Context `{Arch}.
Implicit Types (entity : Entity) (k j : string) (v x dtype : value).

Lemma written_metadata entity k v : metadata k = true → written entity k v = ∅.
Proof.
  intros Hm. unfold written, flattenProperty. unfold metadata in Hm.
  by rewrite Hm.
Qed.

Lemma reserved_no_suffix k : reserved k = true → HasSuffix k "@odata.type" = false.
Proof.
  unfold reserved.
  destruct (String.eqb_spec k "PartitionKey") as [->|_]; [done|].
  destruct (String.eqb_spec k "RowKey") as [->|_]; [done|].
  destruct (String.eqb_spec k "Timestamp") as [->|_]; done.
Qed.

Lemma returned_reserved entity k :
  reserved k = true → returned (flattenEntity entity) !! k = None.
Proof.
  intros Hr. rewrite returned_key by (by apply reserved_no_suffix).
  by rewrite deleteReserved_lookup, Hr.
Qed.

(** The map returned has no reserved key to delete. *)
Lemma deleteReserved_returned entity :
  deleteReserved (returned (flattenEntity entity))
  = returned (flattenEntity entity).
Proof.
  apply map_eq. intros j. rewrite deleteReserved_lookup.
  destruct (reserved j) eqn:Hr; [|done]. by rewrite returned_reserved.
Qed.

(** A property of the map returned comes from the pass over that property
    of the input.  It has a companion with a recognized type name, and then
    it is a string or the value, passed through, of a property annotated
    [Edm.String]; or it has no companion, and then it is a string of the
    input, passed through. *)
Lemma returned_property_shape entity k x :
  HasSuffix k "@odata.type" = false →
  returned (flattenEntity entity) !! k = Some x →
  metadata k = false ∧ reserved k = false
  ∧ ∃ v, entity !! k = Some v
    ∧ match returned (flattenEntity entity) !! (k +:+ "@odata.type") with
      | Some d =>
          recognized d = true
          ∧ (is_string d "Edm.String" = true ∧ x = v ∨ ∃ s, x = VString s)
      | None => x = v ∧ ∃ s, x = VString s
      end.
Proof.
  intros Hs Hx. rewrite returned_companion.
  rewrite returned_key in Hx by done.
  destruct (deleteReserved entity !! k) as [v|] eqn:Hv; [|done].
  destruct (written_Some _ _ _ _ _ Hx) as [Hm _].
  destruct (property_of_deleted _ _ _ Hv Hm) as (_ & Hr & _).
  split_and!; [done..|]. exists v.
  split; [by rewrite deleteReserved_lookup, Hr in Hv|].
  destruct (deleteReserved entity !! (k +:+ "@odata.type")) as [dtype|] eqn:Ha.
  - destruct (recognized dtype) eqn:Hrec.
    + destruct (written_annotated _ k v dtype Hm Ha Hrec) as [Hk ->].
      rewrite Hk in Hx. injection Hx as <-. split; [done|].
      destruct (is_string dtype "Edm.Double"); [by eauto|].
      destruct (is_string dtype "Edm.String"); by eauto.
    + by rewrite (written_unrecognized _ _ _ dtype) in Hx.
  - destruct (written_unannotated _ k v Hm Ha) as [Hk ->].
    rewrite Hk in Hx.
    destruct v as [b|f|s|? ?]; [|destruct (eqb f _)|..]; simplify_eq;
      by eauto.
Qed.

(** Every value of the map returned is a string, save the value of a
    property annotated [Edm.String], which is the value of the input. *)
Theorem returned_values_strings entity j x :
  returned (flattenEntity entity) !! j = Some x →
  (∃ s, x = VString s)
  ∨ (entity !! (j +:+ "@odata.type") = Some (VString "Edm.String")
     ∧ entity !! j = Some x).
Proof.
  intros Hx. destruct (HasSuffix j "@odata.type") eqn:Hs.
  - left. apply HasSuffix_inv in Hs as [k ->].
    rewrite returned_companion in Hx.
    destruct (deleteReserved entity !! k) as [v|]; [|done].
    destruct (written_companion_Some _ _ _ _ Hx) as [_ Hrec].
    destruct x as [| |s|]; try done. by exists s.
  - pose proof Hx as Hk. rewrite returned_key in Hk by done.
    destruct (deleteReserved entity !! j) as [v|] eqn:Hv; [|done].
    destruct (written_Some _ _ _ _ _ Hk) as [Hm _].
    destruct (property_of_deleted _ _ _ Hv Hm) as (_ & Hr & _).
    rewrite deleteReserved_lookup, Hr in Hv.
    destruct (deleteReserved entity !! (j +:+ "@odata.type")) as [dtype|] eqn:Ha.
    + destruct (recognized dtype) eqn:Hrec.
      * destruct (written_annotated _ j v dtype Hm Ha Hrec) as [Hw _].
        rewrite Hw in Hk. injection Hk as <-.
        destruct (is_string dtype "Edm.Double"); [by eauto|].
        destruct (is_string dtype "Edm.String") eqn:Hstr; [|by eauto].
        right. rewrite deleteReserved_companion in Ha.
        destruct dtype as [| |t|]; try done.
        apply String.eqb_eq in Hstr as ->. done.
      * by rewrite (written_unrecognized _ _ _ dtype) in Hk.
    + destruct (written_unannotated _ j v Hm Ha) as [Hw _].
      rewrite Hw in Hk.
      destruct v as [b|f|s|? ?]; [|destruct (eqb f _)|..]; simplify_eq;
        by eauto.
Qed.

(** Decoding the map returned by a decode returns that map again, when
    none of its properties has the companion [Edm.Double]. *)
Theorem redecode_fixpoint entity :
  (∀ k, returned (flattenEntity entity) !! (k +:+ "@odata.type")
        ≠ Some (VString "Edm.Double")) →
  returned (flattenEntity (returned (flattenEntity entity)))
  = returned (flattenEntity entity).
Proof.
  intros Hd. set (out := returned (flattenEntity entity)) in *.
  assert (Hdel : deleteReserved out = out) by apply deleteReserved_returned.
  assert (Hnd : ∀ k d, out !! (k +:+ "@odata.type") = Some d →
                       is_string d "Edm.Double" = false).
  { intros k d Hk. destruct d as [| |t|]; try done. simpl.
    apply String.eqb_neq. intros ->. by apply (Hd k). }
  apply map_eq. intros j. destruct (HasSuffix j "@odata.type") eqn:Hs.
  - apply HasSuffix_inv in Hs as [k ->].
    rewrite returned_companion, Hdel.
    destruct (out !! k) as [x|] eqn:Hx.
    + destruct (HasSuffix k "@odata.type") eqn:Hsk.
      * assert (Hm : metadata k = true)
          by (unfold metadata; rewrite Hsk; apply orb_true_r).
        rewrite written_metadata, lookup_empty by done.
        symmetry. unfold out. rewrite returned_companion.
        destruct (deleteReserved entity !! k); [|done].
        by rewrite written_metadata, lookup_empty.
      * destruct (returned_property_shape entity k x Hsk Hx)
          as (Hm & _ & v & _ & Hshape). fold out in Hshape.
        destruct (out !! (k +:+ "@odata.type")) as [d|] eqn:Hc.
        -- destruct Hshape as [Hrec _].
           by destruct (written_annotated out k x d Hm Hc Hrec) as [_ ->].
        -- destruct Hshape as [_ [s ->]].
           by destruct (written_unannotated out k (VString s) Hm Hc) as [_ ->].
    + symmetry. unfold out. rewrite returned_companion.
      destruct (deleteReserved entity !! k) as [v|] eqn:Hv; [|done].
      destruct (written (deleteReserved entity) k v !! (k +:+ "@odata.type"))
        as [d|] eqn:Hw; [|done].
      destruct (written_Some _ _ _ _ _ Hw) as [[_ Hsk]%orb_false_iff _].
      destruct (written_companion_Some _ _ _ _ Hw) as [[y Hy] _].
      unfold out in Hx. rewrite returned_key, Hv, Hy in Hx by done. done.
  - rewrite returned_key, Hdel by done.
    destruct (out !! j) as [x|] eqn:Hx; [|done].
    destruct (returned_property_shape entity j x Hs Hx)
      as (Hm & _ & v & _ & Hshape). fold out in Hshape.
    destruct (out !! (j +:+ "@odata.type")) as [d|] eqn:Hc.
    + destruct Hshape as [Hrec Hx'].
      destruct (written_annotated out j x d Hm Hc Hrec) as [-> _].
      rewrite (Hnd j d Hc).
      destruct (is_string d "Edm.String"); [done|].
      destruct Hx' as [[? _] | [s ->]]; done.
    + destruct Hshape as [_ [s ->]].
      by destruct (written_unannotated out j (VString s) Hm Hc) as [-> _].
Qed.

(** A pass over a processed key writes the property and logs nothing, or
    writes nothing and logs one line about that key. *)
Lemma written_or_warned entity k v :
  metadata k = false →
  is_Some (written entity k v !! k) ∧ warned entity k v = []
  ∨ written entity k v = ∅
    ∧ ∃ w, warned entity k v = [w] ∧ warning_key w = k.
Proof.
  intros Hm. unfold written, warned, flattenProperty.
  unfold metadata in Hm. rewrite Hm.
  repeat case_match; simpl;
    first [ right; split; [done|]; by eexists
          | left; split; [|done];
            rewrite ?(lookup_insert_ne _ (k +:+ "@odata.type") k)
              by (symmetry; apply key_ne_companion);
            rewrite lookup_insert_eq; by eexists ].
Qed.

Lemma warned_metadata entity k v : metadata k = true → warned entity k v = [].
Proof.
  intros Hm. unfold warned, flattenProperty. unfold metadata in Hm.
  by rewrite Hm.
Qed.

(** A property of the input is missing from the map returned exactly when
    a line about it was logged: no property is dropped silently, and no
    line is logged about a property that was kept. *)
Theorem dropped_iff_warned entity k v :
  entity !! k = Some v → reserved k = false → metadata k = false →
  returned (flattenEntity entity) !! k = None ↔
  ∃ w, w ∈ warnings (flattenEntity entity) ∧ warning_key w = k.
Proof.
  intros Hk Hr Hm. pose proof Hm as [_ Hs]%orb_false_iff.
  rewrite returned_key, deleteReserved_property, Hk by done.
  destruct (written_or_warned (deleteReserved entity) k v Hm)
    as [[[x Hx] Hw] | [Hx (w & Hw & Hkey)]].
  - rewrite Hx. split; [done|]. intros (w & Hin & Hkey).
    apply warnings_elem_of in Hin as (k' & v' & Hk' & Hin).
    destruct (metadata k') eqn:Hm'.
    + rewrite warned_metadata in Hin by done. by apply elem_of_nil in Hin.
    + destruct (written_or_warned (deleteReserved entity) k' v' Hm')
        as [[_ Hw'] | [_ (w' & Hw' & Hkey')]];
        rewrite Hw' in Hin; [by apply elem_of_nil in Hin|].
      apply list_elem_of_singleton in Hin as ->.
      rewrite Hkey' in Hkey. subst k'.
      rewrite deleteReserved_property, Hk in Hk' by done.
      injection Hk' as <-. rewrite Hw in Hw'. done.
  - rewrite Hx, lookup_empty. split; [|done]. intros _. exists w.
    split; [|done]. apply warnings_elem_of. exists k, v.
    split; [by rewrite deleteReserved_property|].
    rewrite Hw. by apply list_elem_of_singleton.
Qed.

(** A property with a recognized annotation is emitted with that
    annotation: as the [%f] text of its value under [Edm.Double], as its
    value itself under [Edm.String], as the [%v] text of its value under
    [Edm.Boolean], [Edm.Int32] and [Edm.Int64]. *)
Theorem annotated_emitted entity k v dtype :
  entity !! k = Some v →
  entity !! (k +:+ "@odata.type") = Some dtype →
  recognized dtype = true →
  reserved k = false → metadata k = false →
  returned (flattenEntity entity) !! k
    = Some (if is_string dtype "Edm.Double" then VString (Sprintf_f v)
            else if is_string dtype "Edm.String" then v
            else VString (Sprint v))
  ∧ returned (flattenEntity entity) !! (k +:+ "@odata.type") = Some dtype.
Proof.
  intros Hk Ha Hrec Hr Hm. pose proof Hm as [_ Hs]%orb_false_iff.
  rewrite returned_key, returned_companion, deleteReserved_property, Hk by done.
  apply written_annotated; [done| |done]. by rewrite deleteReserved_companion.
Qed.

(** A string without annotation is passed through, and gets no
    companion. *)
Theorem unannotated_string_passed entity k s :
  entity !! k = Some (VString s) →
  entity !! (k +:+ "@odata.type") = None →
  reserved k = false → metadata k = false →
  returned (flattenEntity entity) !! k = Some (VString s)
  ∧ returned (flattenEntity entity) !! (k +:+ "@odata.type") = None.
Proof.
  intros Hk Ha Hr Hm.
  destruct (returned_unannotated entity k (VString s)) as (-> & -> & Hd);
    [done..|].
  by destruct (written_unannotated (deleteReserved entity) k (VString s))
    as [-> ->].
Qed.

(** A boolean without annotation is emitted as [true] or [false], with
    the companion [Edm.Boolean]. *)
Theorem unannotated_bool_emitted entity k (b : bool) :
  entity !! k = Some (VBool b) →
  entity !! (k +:+ "@odata.type") = None →
  reserved k = false → metadata k = false →
  returned (flattenEntity entity) !! k
    = Some (VString (if b then "true" else "false"))
  ∧ returned (flattenEntity entity) !! (k +:+ "@odata.type")
    = Some (VString "Edm.Boolean").
Proof.
  intros Hk Ha Hr Hm.
  destruct (returned_unannotated entity k (VBool b)) as (-> & -> & Hd);
    [done..|].
  by destruct (written_unannotated (deleteReserved entity) k (VBool b))
    as [-> ->].
Qed.

(** The order in which [range] visits the map, which Go leaves
    unspecified, shows neither in the map returned nor in the caller's
    map, and it only permutes the lines logged. *)
Theorem range_order_irrelevant (order : Entity → list (string * value)) entity :
  (∀ e, order e ≡ₚ map_to_list e) →
  returned (flattenEntityIn order entity) = returned (flattenEntity entity)
  ∧ entity_after (flattenEntityIn order entity)
    = entity_after (flattenEntity entity)
  ∧ warnings (flattenEntityIn order entity) ≡ₚ warnings (flattenEntity entity).
Proof.
  intros Hp. destruct (flattenEntityIn_order order entity Hp) as [Hr Ha].
  split; [done|]. split; [done|]. by apply flattenEntityIn_warnings.
Qed.
End More.

(** The theorems at the entities of the scenarios. *)

Lemma returned_values_strings_witness :
  (∃ s, VString "3" = VString s)
  ∨ (scenario !! ("count" +:+ "@odata.type") = Some (VString "Edm.String")
     ∧ scenario !! "count" = Some (VString "3")).
Proof.
  apply (returned_values_strings scenario "count" (VString "3")).
  vm_compute. reflexivity.
Defined.

Lemma redecode_fixpoint_witness :
  returned (flattenEntity (returned (flattenEntity scenario)))
  = returned (flattenEntity scenario).
Proof.
  apply (redecode_fixpoint scenario). intros k.
  generalize (k +:+ "@odata.type"). intros j Hj.
  assert (Heq : returned (flattenEntity scenario) = scenario_flat)
    by (vm_compute; reflexivity).
  rewrite Heq in Hj. apply elem_of_map_to_list in Hj.
  assert (Hl : map_to_list scenario_flat
               = [("count@odata.type", VString "Edm.Int64");
                  ("count", VString "3");
                  ("active@odata.type", VString "Edm.Boolean");
                  ("active", VString "true");
                  ("name", VString "x")]) by (vm_compute; reflexivity).
  rewrite Hl in Hj.
  repeat (apply elem_of_cons in Hj as [Hj|Hj];
          [injection Hj as _ Hv; discriminate Hv|]).
  by apply elem_of_nil in Hj.
Defined.

Lemma dropped_iff_warned_witness :
  returned (flattenEntity unsupported) !! "status" = None ↔
  ∃ w, w ∈ warnings (flattenEntity unsupported) ∧ warning_key w = "status".
Proof.
  apply (dropped_iff_warned unsupported "status" (VString "on"));
    vm_compute; reflexivity.
Defined.

Lemma annotated_emitted_witness :
  returned (flattenEntity scenario) !! "count"
    = Some (if is_string (VString "Edm.Int64") "Edm.Double"
            then VString (Sprintf_f (VFloat (of_int64 3)))
            else if is_string (VString "Edm.Int64") "Edm.String"
                 then VFloat (of_int64 3)
                 else VString (Sprint (VFloat (of_int64 3))))
  ∧ returned (flattenEntity scenario) !! ("count" +:+ "@odata.type")
    = Some (VString "Edm.Int64").
Proof.
  apply (annotated_emitted scenario "count" (VFloat (of_int64 3))
           (VString "Edm.Int64")); vm_compute; reflexivity.
Defined.

Lemma unannotated_string_passed_witness :
  returned (flattenEntity scenario) !! "name" = Some (VString "x")
  ∧ returned (flattenEntity scenario) !! ("name" +:+ "@odata.type") = None.
Proof.
  apply (unannotated_string_passed scenario "name" "x");
    vm_compute; reflexivity.
Defined.

Lemma unannotated_bool_emitted_witness :
  returned (flattenEntity scenario) !! "active" = Some (VString "true")
  ∧ returned (flattenEntity scenario) !! ("active" +:+ "@odata.type")
    = Some (VString "Edm.Boolean").
Proof.
  apply (unannotated_bool_emitted scenario "active" true);
    vm_compute; reflexivity.
Defined.

Lemma range_order_irrelevant_witness :
  returned (flattenEntityIn (λ e, reverse (map_to_list e)) unsupported)
  = returned (flattenEntity unsupported)
  ∧ entity_after (flattenEntityIn (λ e, reverse (map_to_list e)) unsupported)
    = entity_after (flattenEntity unsupported)
  ∧ warnings (flattenEntityIn (λ e, reverse (map_to_list e)) unsupported)
    ≡ₚ warnings (flattenEntity unsupported).
Proof.
  apply (range_order_irrelevant (λ e, reverse (map_to_list e)) unsupported).
  intros e. apply reverse_Permutation.
Defined.
End FlattenEntityMore.

(** ** Properties of the access levels and of the ACLs *)

Module StorageContainerSpec.
Import StorageContainer.

(** A configured access level other than the API's own name for private
    survives the trip to the API and back. *)
Theorem flatten_expand_access_level (Private input : string) :
  input ≠ Private →
  flattenStorageContainerAccessLevel Private
    (expandStorageContainerAccessLevel Private input) = input.
Proof.
  intros Hne. unfold flattenStorageContainerAccessLevel,
    expandStorageContainerAccessLevel.
  destruct (String.eqb_spec input "private") as [->|Hp].
  - by rewrite String.eqb_refl.
  - by destruct (String.eqb_spec input Private).
Qed.

(** An access level of the API other than the literal [private] survives
    the trip to the configuration and back. *)
Theorem expand_flatten_access_level (Private input : string) :
  input ≠ "private" →
  expandStorageContainerAccessLevel Private
    (flattenStorageContainerAccessLevel Private input) = input.
Proof.
  intros Hne. unfold flattenStorageContainerAccessLevel,
    expandStorageContainerAccessLevel.
  destruct (String.eqb_spec input Private) as [->|Hp].
  - done.
  - by destruct (String.eqb_spec input "private").
Qed.

Lemma flatten_expand_access_level_witness :
  flattenStorageContainerAccessLevel ""
    (expandStorageContainerAccessLevel "" "private") = "private".
Proof. by apply (flatten_expand_access_level "" "private"). Defined.

Lemma expand_flatten_access_level_witness :
  expandStorageContainerAccessLevel ""
    (flattenStorageContainerAccessLevel "" "") = "".
Proof. by apply (expand_flatten_access_level "" ""). Defined.

End StorageContainerSpec.

Module StorageTableSpec.
Import StorageTable.

Lemma expandACL_flattenACL v : expandACL (flattenACL v) = Some v.
Proof. by destruct v as [id [start expiry permission]]. Qed.

(** Expanding the flattened form of a list of identifiers gives the list
    back: nothing of an identifier is lost in the state. *)
Theorem expand_flatten_ACLs (l : list SignedIdentifier) :
  expandStorageTableACLs (flattenStorageTableACLs (Some l)) = Some l.
Proof.
  induction l as [|v l IH]; [done|].
  simpl in *. by rewrite expandACL_flattenACL, IH.
Qed.


(** Of the access policies of an identifier only the first is read: the
    others are dropped without a word. *)
Theorem expand_first_policy_only (vals : gmap string dyn) (p : dyn)
    (rest : list dyn) :
  expandACL (DMap (<["access_policy" := DList (p :: rest)]> vals))
  = expandACL (DMap (<["access_policy" := DList [p]]> vals)).
Proof.
  unfold expandACL. simpl. rewrite !lookup_insert_eq. simpl.
  by rewrite !lookup_insert_ne.
Qed.

(** An identifier whose list of access policies is empty, which the
    schema allows since [access_policy] is optional, makes the expansion
    panic. *)
Theorem expand_empty_policy_panics (input : list dyn) (vals : gmap string dyn) :
  DMap vals ∈ input →
  vals !! "access_policy" = Some (DList []) →
  expandStorageTableACLs input = None.
Proof.
  intros Hin Hp. induction input as [|v input IH]; [by apply elem_of_nil in Hin|].
  apply elem_of_cons in Hin as [<- | Hin]; simpl.
  - unfold expandACL. simpl. by rewrite Hp.
  - rewrite (IH Hin). by destruct (expandACL v).
Qed.

Lemma expand_empty_policy_panics_witness :
  expandStorageTableACLs
    [DMap {[ "id" := DString "a"; "access_policy" := DList [] ]}] = None.
Proof.
  apply (expand_empty_policy_panics _
           {[ "id" := DString "a"; "access_policy" := DList [] ]}).
  - apply list_elem_of_singleton. reflexivity.
  - vm_compute. reflexivity.
Defined.

End StorageTableSpec.

(** ** Properties of the data plane clients *)

Module StorageClientSpec.
Import GoStrings GoStringsFacts GoStringsMore StorageClient StorageScenarios.

Lemma substring_app_l (r t : string) :
  substring 0 (String.length r) (r +:+ t) = r.
Proof.
  induction r as [|a r IH]; unfold String.app in *; simpl.
  - by destruct t.
  - by rewrite IH.
Qed.

(** [TrimSuffix] removes the suffix once, or nothing. *)
Lemma TrimSuffix_inv (s t u : string) :
  TrimSuffix s t = u → s = u ∨ s = u +:+ t.
Proof.
  unfold TrimSuffix. destruct (HasSuffix s t) eqn:Hs; [|by left].
  apply HasSuffix_inv in Hs as [r ->]. intros <-. right.
  rewrite length_app.
  replace (String.length r + String.length t - String.length t)%nat
    with (String.length r) by lia.
  by rewrite substring_app_l.
Qed.

Lemma TrimSuffix_slash_empty (s : string) :
  TrimSuffix s "/" = "" ↔ s = "" ∨ s = "/".
Proof.
  split.
  - intros [-> | ->]%TrimSuffix_inv; auto.
  - by intros [-> | ->].
Qed.

Lemma endpoint_of_chosen endpoints t :
  (if String.eqb t EndpointTypeBlob then Some (trimmed (Blob endpoints))
   else if String.eqb t EndpointTypeFile then Some (trimmed (File endpoints))
   else if String.eqb t EndpointTypeQueue then Some (trimmed (Queue endpoints))
   else if String.eqb t EndpointTypeTable then Some (trimmed (Table endpoints))
   else None)
  = trimmed <$> endpoint_of endpoints t.
Proof. unfold endpoint_of. by repeat case_match. Qed.

(** The base URI of an account is never empty: it is the endpoint of the
    account for the type asked, without its final slash if it has one. *)
Theorem dataPlaneEndpoint_ok account t uri :
  dataPlaneEndpoint account t = inr uri →
  uri ≠ ""
  ∧ ∃ properties endpoints endpoint,
      Properties account = Some properties
      ∧ PrimaryEndpoints properties = Some endpoints
      ∧ endpoint_of endpoints t = Some (Some endpoint)
      ∧ (endpoint = uri ∨ endpoint = uri +:+ "/").
Proof.
  unfold dataPlaneEndpoint.
  destruct (Properties account) as [properties|] eqn:Hp; [|done].
  destruct (PrimaryEndpoints properties) as [endpoints|] eqn:He; [|done].
  rewrite endpoint_of_chosen.
  destruct (endpoint_of endpoints t) as [o|] eqn:Ho; [|done]. simpl.
  destruct (String.eqb_spec (trimmed o) "") as [|Hne]; [done|].
  intros [= <-]. split; [done|].
  destruct o as [endpoint|]; [|done].
  exists properties, endpoints, endpoint. split_and!; [done..|].
  by apply TrimSuffix_inv.
Qed.

(** An endpoint that is missing, empty or a bare slash is refused as
    undetermined, and no other endpoint is. *)
Theorem dataPlaneEndpoint_undetermined account t properties endpoints o :
  Properties account = Some properties →
  PrimaryEndpoints properties = Some endpoints →
  endpoint_of endpoints t = Some o →
  dataPlaneEndpoint account t = inl (UndeterminedEndpoint t (name account))
  ↔ o = None ∨ o = Some "" ∨ o = Some "/".
Proof.
  intros Hp He Ho. unfold dataPlaneEndpoint.
  rewrite Hp, He, endpoint_of_chosen, Ho. simpl.
  destruct (String.eqb_spec (trimmed o) "") as [Hz|Hne].
  - split; [intros _|done]. destruct o as [s|]; [|by left].
    apply TrimSuffix_slash_empty in Hz as [-> | ->]; auto.
  - split; [done|]. intros Ho'. exfalso. apply Hne.
    destruct Ho' as [-> | [-> | ->]]; done.
Qed.

Section Clients.
Context `{Services}.

(** A client comes back with the base URI of the account and with an
    authorizer: the one for AAD, and then no key was asked for, or a shared
    key authorizer of the key type of the constructor, built from the key
    the account gave. *)
Lemma dataPlaneClient_ok clientName keyType endpointType client account
    operation trace c trace' :
  dataPlaneClient clientName keyType endpointType client account operation
    trace = (inr c, trace') →
  dataPlaneEndpoint account endpointType = inr (baseUri c)
  ∧ (SupportsAadAuthentication operation = true
     ∧ (∃ aad, authorizerForAad client = Some aad
               ∧ authorizer c = Some (AadAuthorizer aad))
     ∧ trace' = trace
     ∨ (SupportsAadAuthentication operation = false
        ∨ authorizerForAad client = None)
       ∧ SupportsSharedKeyAuthentication operation = true
       ∧ (∃ key, AccountKey trace account = inr key
                 ∧ authorizer c
                   = Some (SharedKeyAuthorizer (name account) key keyType))
       ∧ trace' = trace ++ [AskAccountKey (name account)]).
Proof.
  unfold dataPlaneClient.
  destruct (dataPlaneEndpoint account endpointType) as [e|uri]; [done|].
  destruct (NewWithBaseUri clientName uri); [done|].
  unfold ConfigureDataPlane. simpl.
  destruct (SupportsAadAuthentication operation) eqn:Haad;
    [destruct (authorizerForAad client) as [aad|] eqn:Hcfg|].
  - intros [= <- <-]. split; [done|]. left. by eauto.
  - destruct (SupportsSharedKeyAuthentication operation); [|done].
    unfold bind, accountKey.
    destruct (AccountKey trace account) as [cause|key] eqn:Hkey; [done|].
    destruct (NewSharedKeyAuthorizer _ _ _); [done|].
    intros [= <- <-]. split; [done|]. right. by eauto 10.
  - destruct (SupportsSharedKeyAuthentication operation);
      [|by destruct (authorizerForAad client)].
    destruct (authorizerForAad client); unfold bind, accountKey;
      (destruct (AccountKey trace account) as [cause|key] eqn:Hkey; [done|]);
      (destruct (NewSharedKeyAuthorizer _ _ _); [done|]);
      intros [= <- <-]; (split; [done|]); right; by eauto 10.
Qed.

(** The client of the table entities has the table endpoint of the account
    as base URI, and it is authorized for AAD, no key being asked for, or
    by a shared key of the kind the table service expects, whatever kind
    the operation handed in names. *)
Theorem TableEntityDataPlaneClient_authorized client account operation trace
    c trace' :
  TableEntityDataPlaneClient client account operation trace = (inr c, trace') →
  dataPlaneEndpoint account EndpointTypeTable = inr (baseUri c)
  ∧ ((∃ aad, authorizerForAad client = Some aad
             ∧ authorizer c = Some (AadAuthorizer aad))
     ∧ trace' = trace
     ∨ (∃ key, AccountKey trace account = inr key
               ∧ authorizer c
                 = Some (SharedKeyAuthorizer (name account) key SharedKeyTable))
       ∧ trace' = trace ++ [AskAccountKey (name account)]).
Proof.
  intros [Hep Hauth]%dataPlaneClient_ok. split; [done|].
  destruct Hauth as [(_ & Haad & ->) | (_ & _ & Hkey & ->)]; auto.
Qed.

(** An operation that supports only the shared key never gets the
    authorizer for AAD, configured or not: the client of the containers is
    authorized by the key of the account, asked for once. *)
Theorem ContainersDataPlaneClient_only_shared_key client account trace
    c trace' :
  ContainersDataPlaneClient client account
    DataPlaneOperationSupportingOnlySharedKeyAuth trace = (inr c, trace') →
  ∃ key, AccountKey trace account = inr key
         ∧ authorizer c
           = Some (SharedKeyAuthorizer (name account) key SharedKey)
         ∧ trace' = trace ++ [AskAccountKey (name account)].
Proof.
  intros [_ Hauth]%dataPlaneClient_ok.
  destruct Hauth as [(Haad & _) | (_ & _ & (key & Hkey & Hc) & ->)];
    [done|by eauto].
Qed.

(** With AAD configured, an operation that supports it never asks the
    account for its key, whether the client gets built or not. *)
Theorem TableEntityDataPlaneClient_aad_asks_no_key client account aad trace :
  authorizerForAad client = Some aad →
  (TableEntityDataPlaneClient client account
     DataPlaneOperationSupportingAnyAuthMethod trace).2 = trace.
Proof.
  intros Haad. unfold TableEntityDataPlaneClient, dataPlaneClient.
  destruct (dataPlaneEndpoint account EndpointTypeTable) as [e|uri]; [done|].
  destruct (NewWithBaseUri _ uri); [done|].
  unfold ConfigureDataPlane. simpl. by rewrite Haad.
Qed.
End Clients.

(** The theorems at the account and the services of [StorageScenarios]. *)

Lemma dataPlaneEndpoint_ok_witness :
  "https://acct.table.core.windows.net" ≠ ""
  ∧ ∃ properties endpoints endpoint,
      Properties account1 = Some properties
      ∧ PrimaryEndpoints properties = Some endpoints
      ∧ endpoint_of endpoints EndpointTypeTable = Some (Some endpoint)
      ∧ (endpoint = "https://acct.table.core.windows.net"
         ∨ endpoint = "https://acct.table.core.windows.net" +:+ "/").
Proof.
  apply (dataPlaneEndpoint_ok account1 EndpointTypeTable). reflexivity.
Defined.

Lemma dataPlaneEndpoint_undetermined_witness :
  dataPlaneEndpoint account1 EndpointTypeFile
    = inl (UndeterminedEndpoint EndpointTypeFile (name account1))
  ↔ @None string = None ∨ None = Some "" ∨ None = Some "/".
Proof.
  eapply (dataPlaneEndpoint_undetermined account1 EndpointTypeFile);
    reflexivity.
Defined.

Lemma TableEntityDataPlaneClient_authorized_witness :
  dataPlaneEndpoint account1 EndpointTypeTable
    = inr "https://acct.table.core.windows.net"
  ∧ ((∃ aad, authorizerForAad client_key = Some aad
             ∧ Some (SharedKeyAuthorizer "acct" "key" SharedKeyTable)
               = Some (AadAuthorizer aad))
     ∧ [AskAccountKey "acct"] = []
     ∨ (∃ key, AccountKey (Services := services1) [] account1 = inr key
               ∧ Some (SharedKeyAuthorizer "acct" "key" SharedKeyTable)
                 = Some (SharedKeyAuthorizer (name account1) key
                           SharedKeyTable))
       ∧ [AskAccountKey "acct"] = [] ++ [AskAccountKey (name account1)]).
Proof.
  apply (TableEntityDataPlaneClient_authorized (H := services1) client_key
           account1 DataPlaneOperationSupportingAnyAuthMethod []
           {| baseUri := "https://acct.table.core.windows.net";
              authorizer :=
                Some (SharedKeyAuthorizer "acct" "key" SharedKeyTable) |}
           [AskAccountKey "acct"]).
  reflexivity.
Defined.

Lemma ContainersDataPlaneClient_only_shared_key_witness :
  ∃ key, AccountKey (Services := services1) [] account1 = inr key
         ∧ Some (SharedKeyAuthorizer "acct" "key" SharedKey)
           = Some (SharedKeyAuthorizer (name account1) key SharedKey)
         ∧ [AskAccountKey "acct"] = [] ++ [AskAccountKey (name account1)].
Proof.
  apply (ContainersDataPlaneClient_only_shared_key (H := services1) client_aad
           account1 []
           {| baseUri := "https://acct.blob.core.windows.net";
              authorizer := Some (SharedKeyAuthorizer "acct" "key" SharedKey) |}
           [AskAccountKey "acct"]).
  reflexivity.
Defined.

Lemma TableEntityDataPlaneClient_aad_asks_no_key_witness :
  (TableEntityDataPlaneClient (H := services1) client_aad account1
     DataPlaneOperationSupportingAnyAuthMethod []).2 = [].
Proof.
  apply (TableEntityDataPlaneClient_aad_asks_no_key (H := services1)
           client_aad account1 "aad" []).
  reflexivity.
Defined.
End StorageClientSpec.

(** ** Properties of the table entity resource *)

Module TableEntityResourceSpec.
Import Float64 TableEntity StorageClient StorageClientSpec TableEntityResource
  StorageScenarios.

Section Resource.
Context `{Arch} `{Services} `{Remote}.

(** Building the client of the table entities leaves the resource data as
    it is, asks at most for the key of the account, and yields a client
    authorized for the table service. *)
Lemma build_inv storageClient account operation wrap w r w' :
  build (TableEntityDataPlaneClient storageClient account operation) wrap w
    = (r, w') →
  d w' = d w
  ∧ (trace w' = trace w
     ∨ trace w' = trace w ++ [AskAccountKey (name account)])
  ∧ ∀ c, r = inr c → authorized_for_tables c.
Proof.
  unfold build.
  destruct (TableEntityDataPlaneClient _ _ _ _) as [[e|c] t'] eqn:Hb.
  - intros [= <- <-]. simpl. split; [done|]. split; [|done].
    revert Hb. unfold TableEntityDataPlaneClient, dataPlaneClient.
    destruct (dataPlaneEndpoint _ _); [by intros [= _ <-]; left|].
    destruct (NewWithBaseUri _ _); [by intros [= _ <-]; left|].
    unfold ConfigureDataPlane, bind, accountKey, fail, ret. simpl.
    repeat case_match; intros [= <-]; auto.
  - intros [= <- <-]. simpl. split; [done|].
    apply dataPlaneClient_ok in Hb as [_ Hauth].
    split.
    + destruct Hauth as [(_ & _ & ->) | (_ & _ & _ & ->)]; auto.
    + intros ? [= <-]. unfold authorized_for_tables.
      destruct Hauth as [(_ & (aad & _ & Hc) & _) | (_ & _ & (key & _ & Hc) & _)];
        eauto.
Qed.

Ltac run :=
  cbn -[flattenEntity returned build TableEntityDataPlaneClient
        resourceStorageTableEntityRead] in *.

(** What a call made while reading is: one that changes nothing, through
    a client authorized for the table service if it goes to that
    service. *)
Definition reading (c : call) : Prop :=
  read_only c = true
  ∧ ∀ client, call_client c = Some client → authorized_for_tables client.

Ltac calls :=
  repeat (apply List.Forall_cons; [split; [done|simpl; try done]|]);
  try apply List.Forall_nil.

Lemma Read_inv storageClient w r w' :
  resourceStorageTableEntityRead storageClient w = (r, w') →
  IsNewResource (d w') = IsNewResource (d w)
  ∧ (∃ l, trace w' = trace w ++ l ∧ Forall reading l)
  ∧ match r with
    | inl _ => Id (d w') = Id (d w) ∧ entity (d w') = entity (d w)
    | inr _ =>
        ∃ id, ParseEntityID (Id (d w)) (StorageDomainSuffix storageClient)
              = inr id
          ∧ (FindAccount (trace w) (AccountName (AccountId_ id)) = inr None
             ∧ Id (d w') = ""
             ∧ entity (d w') = entity (d w)
             ∧ trace w' = trace w ++ [AskFindAccount (AccountName (AccountId_ id))]
             ∨ Id (d w') = Id (d w)
               ∧ (∃ client history result,
                     Get history client (TableName id) (PartitionKey id)
                       (RowKey id) FullMetaData = (result, None)
                     ∧ entity (d w')
                       = returned (flattenEntity (Entity_ result)))
               ∧ storage_account_name (d w') = AccountName (AccountId_ id)
               ∧ table_name (d w') = TableName id
               ∧ partition_key (d w') = PartitionKey id
               ∧ row_key (d w') = RowKey id)
    end.
Proof.
  unfold resourceStorageTableEntityRead, bind, getData, perform. run.
  destruct (ParseEntityID _ _) as [cause|id] eqn:Hid.
  { intros [= <- <-]. split; [done|split; [|by split]].
    exists []. by rewrite app_nil_r. }
  destruct (FindAccount _ _) as [cause|[account|]] eqn:Hfind.
  - intros [= <- <-]. run. split; [done|split; [|by split]].
    eexists. split; [done|]. calls.
  - destruct (build _ _ _) as [[e|client] w1] eqn:Hb;
      apply build_inv in Hb as (Hd & Ht & Hauth); run.
    { intros [= <- <-]. rewrite Hd. split; [done|split; [|by split]].
      destruct Ht as [-> | ->]; rewrite <- ?app_assoc; eexists;
        (split; [done|]); calls. }
    assert (Hcalls : ∃ l, trace w1
        ++ [EntityGet client (TableName id) (PartitionKey id) (RowKey id)
              FullMetaData] = trace w ++ l ∧ Forall reading l).
    { specialize (Hauth client eq_refl).
      destruct Ht as [-> | ->]; rewrite <- ?app_assoc; eexists;
        (split; [done|]); calls; by intros ? [= <-]. }
    destruct (Get _ _ _ _ _ _) as [result [cause|]] eqn:Hget.
    { intros [= <- <-]. run. by rewrite Hd. }
    unfold Set_entity, modify, bind, ret, fail. run.
    destruct (SetEntityError _) as [cause|] eqn:Hset.
    + intros [= <- <-]. run. by rewrite Hd.
    + intros [= <- <-]. run. rewrite Hd. split; [done|split; [done|]].
      exists id. split; [done|]. right. split; [done|split; [|by split]].
      by exists client, (trace w1), result.
  - intros [= <- <-]. run. split; [done|split].
    + eexists. split; [done|]. calls.
    + exists id. split; [done|]. by left.
Qed.

(** The end of [resourceStorageTableEntityCreateUpdate]: the write, the
    id, the read. *)
Lemma write_then_read storageClient client id t pk rk e w0 r w' :
  (failed <- perform (λ h, InsertOrMerge h client t pk rk e)
               (EntityInsertOrMerge client t pk rk e) ;;
   match failed with
   | Some cause => fail (Creating id cause)
   | None =>
       _ <- SetId (EntityID id) ;;
       resourceStorageTableEntityRead storageClient
   end) w0 = (r, w') →
  ∃ l, trace w' = trace w0 ++ EntityInsertOrMerge client t pk rk e :: l
    ∧ Forall reading l
    ∧ (r = inr tt →
       InsertOrMerge (trace w0) client t pk rk e = None
       ∧ ∃ w2, Id (d w2) = EntityID id
           ∧ trace w2 = trace w0 ++ [EntityInsertOrMerge client t pk rk e]
           ∧ resourceStorageTableEntityRead storageClient w2 = (inr tt, w')).
Proof.
  unfold bind, perform, SetId, modify.
  cbn -[resourceStorageTableEntityRead].
  destruct (InsertOrMerge _ _ _ _ _ _) as [cause|] eqn:Hput.
  - intros [= <- <-]. exists []. by split; [|split].
  - intros Hread. pose proof Hread as Hinv.
    apply Read_inv in Hinv as (_ & (l & Hl & Hreading) & _). run.
    exists l. rewrite Hl, <- app_assoc. split; [done|split; [done|]].
    intros ->. split; [done|]. eexists. by split; [|split; [|exact Hread]].
Qed.

(** What a call that changes the table is allowed to be when the
    resource data is [data]: the write of the entity configured, under the
    keys configured, through a client authorized for the table service,
    and for a new resource only after the table service has answered that
    nothing is stored under these keys. *)
Definition configured_write (data : ResourceData) (c : call) : Prop :=
  ∃ client,
    c = EntityInsertOrMerge client (table_name data) (partition_key data)
          (row_key data) (entity data)
    ∧ authorized_for_tables client
    ∧ (IsNewResource data = true →
       ∃ history existing err,
         Get history client (table_name data) (partition_key data)
           (row_key data) NoMetaData = (existing, err)
         ∧ WasNotFound (HttpResponse existing) = true).

Lemma CreateUpdate_inv storageClient w r w' :
  resourceStorageTableEntityCreateUpdate storageClient w = (r, w') →
  ∃ l, trace w' = trace w ++ l
    ∧ Forall (λ c, reading c ∨ configured_write (d w) c) l
    ∧ (r = inr tt →
       IsNewResource (d w) = false
       ∧ FindAccount (trace w) (storage_account_name (d w)) = inr None
       ∧ Id (d w') = ""
       ∧ l = [AskFindAccount (storage_account_name (d w))]
       ∨ ∃ account accountId client history w2,
           FindAccount (trace w) (storage_account_name (d w))
             = inr (Some account)
           ∧ ParseAccountID (storage_account_name (d w))
               (StorageDomainSuffix storageClient) = inr accountId
           ∧ InsertOrMerge history client (table_name (d w))
               (partition_key (d w)) (row_key (d w)) (entity (d w)) = None
           ∧ EntityInsertOrMerge client (table_name (d w))
               (partition_key (d w)) (row_key (d w)) (entity (d w)) ∈ l
           ∧ Id (d w2)
             = EntityID (NewEntityID accountId (table_name (d w))
                           (partition_key (d w)) (row_key (d w)))
           ∧ resourceStorageTableEntityRead storageClient w2 = (inr tt, w')).
Proof.
  unfold resourceStorageTableEntityCreateUpdate, bind, getData.
  unfold perform at 1.
  cbn -[flattenEntity returned build TableEntityDataPlaneClient
        resourceStorageTableEntityRead perform].
  destruct (FindAccount _ _) as [cause|[account|]] eqn:Hfind.
  - intros [= <- <-]. eexists. split; [done|]. split; [|done].
    apply List.Forall_cons; [left; by split|apply List.Forall_nil].
  - destruct (ParseAccountID _ _) as [cause|accountId] eqn:Hacc.
    { intros [= <- <-]. eexists. split; [done|]. split; [|done].
      apply List.Forall_cons; [left; by split|apply List.Forall_nil]. }
    destruct (build _ _ _) as [[e|client] w1] eqn:Hb;
      apply build_inv in Hb as (Hd & Ht & Hauth); run.
    { intros [= <- <-]. destruct Ht as [-> | ->]; rewrite <- ?app_assoc;
        eexists; (split; [done|]); (split; [|done]);
        repeat (apply List.Forall_cons; [left; by split|]);
        apply List.Forall_nil. }
    specialize (Hauth client eq_refl).
    assert (Hprefix : ∃ l1, trace w1 = trace w ++ l1 ∧ Forall reading l1).
    { destruct Ht as [-> | ->]; rewrite <- ?app_assoc; eexists;
        (split; [done|]); calls. }
    clear Ht. destruct Hprefix as (l1 & Hl1 & Hreading1).
    assert (Hleft : ∀ l, Forall reading l →
              Forall (λ c, reading c ∨ configured_write (d w) c) l).
    { intros l Hl. eapply Forall_impl; [exact Hl|]. by left. }
    set (id := NewEntityID accountId _ _ _).
    destruct (IsNewResource (d w)) eqn:Hnew; run.
    + destruct (Get _ _ _ _ _ _) as [existing err] eqn:Hget.
      assert (Hcheck : Forall reading
                (l1 ++ [EntityGet client (table_name (d w))
                          (partition_key (d w)) (row_key (d w)) NoMetaData])).
      { apply Forall_app. split; [done|]. calls. by intros ? [= <-]. }
      destruct (WasNotFound _) eqn:Hnf; run.
      * intros Hrun.
        assert (Hrun' : (failed <- perform
                   (λ h, InsertOrMerge h client (table_name (d w))
                           (partition_key (d w)) (row_key (d w))
                           (entity (d w)))
                   (EntityInsertOrMerge client (table_name (d w))
                      (partition_key (d w)) (row_key (d w)) (entity (d w))) ;;
                 match failed with
                 | Some cause => fail (Creating id cause)
                 | None =>
                     _ <- SetId (EntityID id) ;;
                     resourceStorageTableEntityRead storageClient
                 end)
                  {| trace := trace w1
                       ++ [EntityGet client (table_name (d w))
                             (partition_key (d w)) (row_key (d w))
                             NoMetaData];
                     d := d w1 |} = (r, w')) by (by destruct err).
        clear Hrun.
        apply write_then_read in Hrun' as (l & Hl & Hreading & Hok). run.
        rewrite Hl, Hl1, <- !app_assoc. eexists. split; [done|]. split.
        -- rewrite app_assoc. apply Forall_app. split; [by apply Hleft|].
           apply List.Forall_cons; [|by apply Hleft].
           right. exists client. split; [done|]. split; [done|].
           intros _. by exists (trace w1), existing, err.
        -- intros ->. destruct (Hok eq_refl) as (Hput & w2 & Hid2 & _ & Hread).
           right. exists account, accountId, client. eexists. exists w2.
           split; [done|]. split; [done|]. split; [exact Hput|].
           split; [|by split].
           rewrite !elem_of_app, !elem_of_cons. auto.
      * destruct err; run; intros [= <- <-]; run;
          rewrite Hl1, <- !app_assoc; eexists; (split; [done|]);
          (split; [by apply Hleft|done]).
    + intros Hrun.
      apply (write_then_read storageClient client id _ _ _ _ w1) in Hrun
        as (l & Hl & Hreading & Hok).
      rewrite Hl, Hl1, <- !app_assoc. eexists. split; [done|]. split.
      * apply Forall_app. split; [by apply Hleft|].
        apply List.Forall_cons; [|by apply Hleft].
        right. exists client. split; [done|]. split; [done|].
        by rewrite Hnew.
      * intros ->. destruct (Hok eq_refl) as (Hput & w2 & Hid2 & _ & Hread).
        right. exists account, accountId, client. eexists. exists w2.
        split; [done|]. split; [done|]. split; [exact Hput|].
        split; [|by split].
        rewrite !elem_of_app, !elem_of_cons. auto.
  - destruct (IsNewResource (d w)) eqn:Hnew; unfold SetId, modify; run;
      intros [= <- <-]; run; eexists; (split; [done|]);
      (split; [apply List.Forall_cons; [left; by split|apply List.Forall_nil]|]);
      [done|].
    intros _. by left.
Qed.

(** A successful read either finds the account gone and clears the id,
    the only call made being the lookup of the account, or leaves the id
    and sets the four keys to the parts of the id and [entity] to the
    flattened entity of a [Get] with full metadata that returned no
    error. *)
Theorem Read_refreshes_state storageClient w w' :
  resourceStorageTableEntityRead storageClient w = (inr tt, w') →
  ∃ id, ParseEntityID (Id (d w)) (StorageDomainSuffix storageClient) = inr id
    ∧ (FindAccount (trace w) (AccountName (AccountId_ id)) = inr None
       ∧ Id (d w') = ""
       ∧ entity (d w') = entity (d w)
       ∧ trace w' = trace w ++ [AskFindAccount (AccountName (AccountId_ id))]
       ∨ Id (d w') = Id (d w)
         ∧ (∃ client history result,
               Get history client (TableName id) (PartitionKey id)
                 (RowKey id) FullMetaData = (result, None)
               ∧ entity (d w') = returned (flattenEntity (Entity_ result)))
         ∧ storage_account_name (d w') = AccountName (AccountId_ id)
         ∧ table_name (d w') = TableName id
         ∧ partition_key (d w') = PartitionKey id
         ∧ row_key (d w') = RowKey id).
Proof. by intros (_ & _ & Hok)%Read_inv. Qed.

(** A read that fails, as it does when the entity is gone from the
    table, keeps the id and the entity of the resource data: only a
    missing account removes the resource from the state. *)
Theorem Read_failure_keeps_resource storageClient w e w' :
  resourceStorageTableEntityRead storageClient w = (inl e, w') →
  Id (d w') = Id (d w) ∧ entity (d w') = entity (d w).
Proof. by intros (_ & _ & Hko)%Read_inv. Qed.

(** A read changes nothing outside: the calls it adds to the trace are
    lookups and [Get]s, the latter through a client authorized for the
    table service. *)
Theorem Read_only_reads storageClient w r w' :
  resourceStorageTableEntityRead storageClient w = (r, w') →
  ∃ l, trace w' = trace w ++ l
    ∧ ∀ c, c ∈ l →
        read_only c = true
        ∧ ∀ client, call_client c = Some client → authorized_for_tables client.
Proof.
  intros (_ & (l & Hl & Hreading) & _)%Read_inv. exists l. split; [done|].
  by apply Forall_forall.
Qed.

(** Whatever a create or an update changes in the table, it changes by
    one kind of call: [InsertOrMerge] of the entity configured, under the
    table and the keys configured, through a client authorized for the
    table service.  It never deletes. *)
Theorem CreateUpdate_writes_configuration storageClient w r w' :
  resourceStorageTableEntityCreateUpdate storageClient w = (r, w') →
  ∃ l, trace w' = trace w ++ l
    ∧ ∀ c, c ∈ l → read_only c = false →
        ∃ client,
          c = EntityInsertOrMerge client (table_name (d w))
                (partition_key (d w)) (row_key (d w)) (entity (d w))
          ∧ authorized_for_tables client.
Proof.
  intros (l & Hl & Hcalls & _)%CreateUpdate_inv. exists l. split; [done|].
  intros c Hc Hw. rewrite Forall_forall in Hcalls.
  destruct (Hcalls c Hc) as [[Hr _] | (client & -> & Hauth & _)];
    [congruence|by exists client].
Qed.


(** A create or an update that succeeds has written the entity
    configured, [InsertOrMerge] returning no error, has set the id to the
    id of the entity, and ends as the read that follows ends; or, for an
    update only, it has found the account gone, cleared the id and written
    nothing. *)
Theorem CreateUpdate_success storageClient w w' :
  resourceStorageTableEntityCreateUpdate storageClient w = (inr tt, w') →
  IsNewResource (d w) = false
  ∧ FindAccount (trace w) (storage_account_name (d w)) = inr None
  ∧ Id (d w') = ""
  ∧ trace w' = trace w ++ [AskFindAccount (storage_account_name (d w))]
  ∨ ∃ account accountId client history w2,
      FindAccount (trace w) (storage_account_name (d w)) = inr (Some account)
      ∧ ParseAccountID (storage_account_name (d w))
          (StorageDomainSuffix storageClient) = inr accountId
      ∧ InsertOrMerge history client (table_name (d w))
          (partition_key (d w)) (row_key (d w)) (entity (d w)) = None
      ∧ EntityInsertOrMerge client (table_name (d w))
          (partition_key (d w)) (row_key (d w)) (entity (d w)) ∈ trace w'
      ∧ Id (d w2)
        = EntityID (NewEntityID accountId (table_name (d w))
                      (partition_key (d w)) (row_key (d w)))
      ∧ resourceStorageTableEntityRead storageClient w2 = (inr tt, w').
Proof.
  intros (l & Hl & _ & Hok)%CreateUpdate_inv.
  destruct (Hok eq_refl) as [(Hnew & Hfind & Hid & ->)
    | (account & accountId & client & history & w2 & Hfind & Hacc & Hput
       & Hin & Hid & Hread)].
  - by left.
  - right. exists account, accountId, client, history, w2.
    split_and!; try done. rewrite Hl, elem_of_app. by right.
Qed.

(** A delete leaves the resource data as it is, and it succeeds only
    when the account was found and the last call made is the [Delete] of
    the entity the id names, through a client authorized for the table
    service, returning no error.  Unlike a read, it fails when the account
    is gone. *)
Theorem Delete_deletes_entity storageClient w r w' :
  resourceStorageTableEntityDelete storageClient w = (r, w') →
  d w' = d w
  ∧ (r = inr tt →
     ∃ id account client l,
       ParseEntityID (Id (d w)) (StorageDomainSuffix storageClient) = inr id
       ∧ FindAccount (trace w) (AccountName (AccountId_ id))
         = inr (Some account)
       ∧ authorized_for_tables client
       ∧ Delete (trace w ++ l) client (TableName id) (PartitionKey id)
           (RowKey id) = None
       ∧ trace w'
         = trace w ++ l
           ++ [EntityDelete client (TableName id) (PartitionKey id)
                 (RowKey id)]
       ∧ Forall (λ c, read_only c = true) l).
Proof.
  unfold resourceStorageTableEntityDelete, bind, getData, perform. run.
  destruct (ParseEntityID _ _) as [cause|id] eqn:Hid;
    [by intros [= <- <-]|].
  destruct (FindAccount _ _) as [cause|[account|]] eqn:Hfind;
    [by intros [= <- <-]| |by intros [= <- <-]].
  destruct (build _ _ _) as [[e|client] w1] eqn:Hb;
    apply build_inv in Hb as (Hd & Ht & Hauth); run;
    [by intros [= <- <-]|].
  destruct (Delete _ _ _ _ _) as [cause|] eqn:Hdel; intros [= <- <-]; run;
    (split; [done|]); [done|].
  intros _. exists id, account, client.
  destruct Ht as [Ht | Ht]; rewrite Ht, <- ?app_assoc in *;
    eexists; (split_and!; [done|done|by apply Hauth|exact Hdel|done|]);
    by repeat constructor.
Qed.
End Resource.

(** The theorems at the services of [StorageScenarios]: first with a
    table service that holds the entity of the scenario. *)

Section Stored.
#[local] Existing Instance services1.
#[local] Existing Instance remote1.

Lemma Read_refreshes_state_witness :
  ∃ id, ParseEntityID (Id (d (world1 false))) (StorageDomainSuffix client_aad)
        = inr id
    ∧ (FindAccount (trace (world1 false)) (AccountName (AccountId_ id))
       = inr None
       ∧ Id (d (resourceStorageTableEntityRead client_aad (world1 false)).2)
         = ""
       ∧ entity (d (resourceStorageTableEntityRead client_aad (world1 false)).2)
         = entity (d (world1 false))
       ∧ trace (resourceStorageTableEntityRead client_aad (world1 false)).2
         = trace (world1 false)
           ++ [AskFindAccount (AccountName (AccountId_ id))]
       ∨ Id (d (resourceStorageTableEntityRead client_aad (world1 false)).2)
         = Id (d (world1 false))
         ∧ (∃ client history result,
               Get history client (TableName id) (PartitionKey id)
                 (RowKey id) FullMetaData = (result, None)
               ∧ entity
                   (d (resourceStorageTableEntityRead client_aad
                         (world1 false)).2)
                 = returned (flattenEntity (Entity_ result)))
         ∧ storage_account_name
             (d (resourceStorageTableEntityRead client_aad (world1 false)).2)
           = AccountName (AccountId_ id)
         ∧ table_name
             (d (resourceStorageTableEntityRead client_aad (world1 false)).2)
           = TableName id
         ∧ partition_key
             (d (resourceStorageTableEntityRead client_aad (world1 false)).2)
           = PartitionKey id
         ∧ row_key
             (d (resourceStorageTableEntityRead client_aad (world1 false)).2)
           = RowKey id).
Proof.
  apply (Read_refreshes_state client_aad (world1 false)).
  vm_compute. reflexivity.
Defined.

Lemma Read_only_reads_witness :
  ∃ l, trace (resourceStorageTableEntityRead client_key (world1 false)).2
       = trace (world1 false) ++ l
    ∧ ∀ c, c ∈ l →
        read_only c = true
        ∧ ∀ client, call_client c = Some client → authorized_for_tables client.
Proof.
  apply (Read_only_reads client_key (world1 false) (inr tt)).
  vm_compute. reflexivity.
Defined.

Lemma Delete_deletes_entity_witness :
  d (resourceStorageTableEntityDelete client_key (world1 false)).2
  = d (world1 false)
  ∧ (@inr rerror unit tt = inr tt →
     ∃ id account client l,
       ParseEntityID (Id (d (world1 false))) (StorageDomainSuffix client_key)
       = inr id
       ∧ FindAccount (trace (world1 false)) (AccountName (AccountId_ id))
         = inr (Some account)
       ∧ authorized_for_tables client
       ∧ Delete (trace (world1 false) ++ l) client (TableName id)
           (PartitionKey id) (RowKey id) = None
       ∧ trace (resourceStorageTableEntityDelete client_key (world1 false)).2
         = trace (world1 false) ++ l
           ++ [EntityDelete client (TableName id) (PartitionKey id)
                 (RowKey id)]
       ∧ Forall (λ c, read_only c = true) l).
Proof.
  apply (Delete_deletes_entity client_key (world1 false) (inr tt)).
  vm_compute. reflexivity.
Defined.
End Stored.

(** With a table service that holds nothing. *)

Section Empty.
#[local] Existing Instance services1.
#[local] Existing Instance remote_empty.

Lemma Read_failure_keeps_resource_witness :
  Id (d (resourceStorageTableEntityRead client_aad (world1 false)).2)
  = Id (d (world1 false))
  ∧ entity (d (resourceStorageTableEntityRead client_aad (world1 false)).2)
    = entity (d (world1 false)).
Proof.
  apply (Read_failure_keeps_resource client_aad (world1 false)
           (RetrievingEntity id1 "not found")).
  vm_compute. reflexivity.
Defined.
End Empty.

(** With a table service that holds nothing until something is
    written. *)

Section Store.
#[local] Existing Instance services1.
#[local] Existing Instance remote_store.

Lemma CreateUpdate_writes_configuration_witness :
  ∃ l, trace (resourceStorageTableEntityCreateUpdate client_key
                (world1 true)).2
       = trace (world1 true) ++ l
    ∧ ∀ c, c ∈ l → read_only c = false →
        ∃ client,
          c = EntityInsertOrMerge client (table_name (d (world1 true)))
                (partition_key (d (world1 true))) (row_key (d (world1 true)))
                (entity (d (world1 true)))
          ∧ authorized_for_tables client.
Proof.
  apply (CreateUpdate_writes_configuration client_key (world1 true) (inr tt)).
  vm_compute. reflexivity.
Defined.


Lemma CreateUpdate_success_witness :
  IsNewResource (d (world1 true)) = false
  ∧ FindAccount (trace (world1 true)) (storage_account_name (d (world1 true)))
    = inr None
  ∧ Id (d (resourceStorageTableEntityCreateUpdate client_aad
             (world1 true)).2) = ""
  ∧ trace (resourceStorageTableEntityCreateUpdate client_aad (world1 true)).2
    = trace (world1 true)
      ++ [AskFindAccount (storage_account_name (d (world1 true)))]
  ∨ ∃ account accountId client history w2,
      FindAccount (trace (world1 true)) (storage_account_name (d (world1 true)))
      = inr (Some account)
      ∧ ParseAccountID (storage_account_name (d (world1 true)))
          (StorageDomainSuffix client_aad) = inr accountId
      ∧ InsertOrMerge history client (table_name (d (world1 true)))
          (partition_key (d (world1 true))) (row_key (d (world1 true)))
          (entity (d (world1 true))) = None
      ∧ EntityInsertOrMerge client (table_name (d (world1 true)))
          (partition_key (d (world1 true))) (row_key (d (world1 true)))
          (entity (d (world1 true)))
        ∈ trace (resourceStorageTableEntityCreateUpdate client_aad
                   (world1 true)).2
      ∧ Id (d w2)
        = EntityID (NewEntityID accountId (table_name (d (world1 true)))
                      (partition_key (d (world1 true)))
                      (row_key (d (world1 true))))
      ∧ resourceStorageTableEntityRead client_aad w2
        = (inr tt,
           (resourceStorageTableEntityCreateUpdate client_aad (world1 true)).2).
Proof.
  apply (CreateUpdate_success client_aad (world1 true)).
  vm_compute. reflexivity.
Defined.
End Store.
End TableEntityResourceSpec.
